(** * bimage.py: BC1/BC3 block decoders and the minimal PNG writer

    A shallow embedding of [decompress_dxt1], [decompress_dxt5] and
    [write_png] from [src/bimage.py], and the properties of them that the
    specification states.

    Conventions of the embedding:
    - Python [int] is [Z]; [//] is [Z.div] (floor), [>>] is [Z.shiftr],
      [&] is [Z.land].
    - [bytes] and [bytearray] are [list byte]; a byte read as an [int] is
      [byte_val].
    - A Python call either returns or raises: [result A] is [Ok a] or
      [Raise e], threaded with [x <- e ;; k].
    - [for v in range(n)] over a mutated buffer is [for_each (range n)]
      over a body that passes the buffer along.
    - Memory is unbounded in [decompress_dxt1] and [decompress_dxt5];
      [decompress_dxt1_on] and [decompress_dxt5_on] are the same calls
      under the interpreter's allocation limits.
    - Opening files and printing are left out: [write_png] is the byte
      string it writes, and of [convert_bimage] only the choice of the
      decoder is kept. *)

From Stdlib Require Import ZArith Lia Bool.
From Stdlib Require Import Init.Byte Strings.Byte.
From stdpp Require Import base list.

Local Open Scope Z_scope.

(** ** Results of Python calls *)

Inductive exn : Type :=
| ValueError
| IndexError
| StructError
| OverflowError
| MemoryError.

Inductive result (A : Type) : Type :=
| Ok (a : A)
| Raise (e : exn).

Arguments Ok {A} a.
Arguments Raise {A} e.

(** Sequencing: an exception in [m] skips [k]. *)
Definition bind {A B : Type} (m : result A) (k : A -> result B) : result B :=
  match m with
  | Ok a => k a
  | Raise e => Raise e
  end.

Notation "x <- e ;; k" := (bind e (fun x => k))
  (at level 20, e at level 99, k at level 200, format "x  <-  e  ;;  '/' k").

(** [for k in l: s = body(k, s)], stopping at the first exception. *)
Fixpoint for_each {S : Type} (l : list Z) (body : Z -> S -> result S) (s : S)
  : result S :=
  match l with
  | [] => Ok s
  | k :: l' => s' <- body k s ;; for_each l' body s'
  end.

(** [range(n)]: [0, 1, ..., n-1], empty when [n <= 0]. *)
Definition range (n : Z) : list Z := seqZ 0 n.

(** ** Python sequences *)

(** [len(l)] *)
Definition len {A : Type} (l : list A) : Z := Z.of_nat (length l).

(** A byte of a [bytes] object read as an [int]. *)
Definition byte_val (b : byte) : Z := Z.of_N (Byte.to_N b).

(** A slice bound as Python normalises it against a length [n]: a negative
    bound counts from the end, and the result is clamped to [0..n]. *)
Definition norm_index (n i : Z) : Z :=
  if i <? 0 then Z.max 0 (n + i) else Z.min i n.

(** [l[i:j]] *)
Definition slice {A : Type} (l : list A) (i j : Z) : list A :=
  let a := norm_index (len l) i in
  let b := norm_index (len l) j in
  take (Z.to_nat (b - a)) (drop (Z.to_nat a) l).

(** [l[i]]: raises IndexError out of range. *)
Definition index {A : Type} (l : list A) (i : Z) : result A :=
  let i' := if i <? 0 then len l + i else i in
  if (i' <? 0) || (len l <=? i') then Raise IndexError
  else match l !! Z.to_nat i' with
       | Some x => Ok x
       | None => Raise IndexError
       end.

(** [bytearray(n)]: [n] zero bytes; a negative count raises ValueError.
    Memory is taken as unbounded here; [bytearray_on] below adds the limits
    of the interpreter (OverflowError, MemoryError). *)
Definition bytearray (n : Z) : result (list byte) :=
  if n <? 0 then Raise ValueError else Ok (replicate (Z.to_nat n) x00).

(** An [int] stored into a [bytearray] must be in [range(256)]. *)
Definition to_byte (v : Z) : result byte :=
  if v <? 0 then Raise ValueError
  else match Byte.of_N (Z.to_N v) with
       | Some b => Ok b
       | None => Raise ValueError
       end.

(** The bytes of an iterable of ints, as a slice assignment converts them. *)
Fixpoint to_bytes (vs : list Z) : result (list byte) :=
  match vs with
  | [] => Ok []
  | v :: vs' => b <- to_byte v ;; bs <- to_bytes vs' ;; Ok (b :: bs)
  end.

(** [buf[i:j] = vs] on a bytearray: the slice is replaced by the bytes of
    [vs] (the buffer is resized when the lengths differ). *)
Definition set_slice (buf : list byte) (i j : Z) (vs : list Z)
  : result (list byte) :=
  bs <- to_bytes vs ;;
  let a := norm_index (len buf) i in
  let b := Z.max a (norm_index (len buf) j) in
  Ok (take (Z.to_nat a) buf ++ bs ++ drop (Z.to_nat b) buf).

(** [buf[i] = v] on a bytearray. *)
Definition set_item (buf : list byte) (i v : Z) : result (list byte) :=
  b <- to_byte v ;;
  let i' := if i <? 0 then len buf + i else i in
  if (i' <? 0) || (len buf <=? i') then Raise IndexError
  else Ok (<[Z.to_nat i' := b]> buf).

(** ** struct.unpack, little endian *)

(** The unsigned integer a byte string holds, least significant byte first. *)
Fixpoint le_int (bs : list byte) : Z :=
  match bs with
  | [] => 0
  | b :: bs' => byte_val b + 256 * le_int bs'
  end.

(** [struct.unpack(fmt, bs)[0]] for a single little-endian unsigned field
    of [n] bytes; a buffer of another size raises struct.error. *)
Definition unpack_le (n : nat) (bs : list byte) : result Z :=
  if decide (length bs = n) then Ok (le_int bs) else Raise StructError.

Definition unpack_H := unpack_le 2.   (* '<H' *)
Definition unpack_I := unpack_le 4.   (* '<I' *)
Definition unpack_Q := unpack_le 8.   (* '<Q' *)

(** ** decompress_dxt1 (bimage.py 6-64) *)

(** The tuples [(r, g, b, a)] and [(r, g, b)] kept in [colors]. *)
Definition rgba : Type := Z * Z * Z * Z.
Definition rgb : Type := Z * Z * Z.

(** A tuple as the sequence of ints a slice assignment iterates over. *)
Definition rgba_list (c : rgba) : list Z :=
  let '(r, g, b, a) := c in [r; g; b; a].

Definition rgb_list (c : rgb) : list Z :=
  let '(r, g, b) := c in [r; g; b].

(** Lines 26-28: the three channels of an RGB565 value, scaled to 8 bits. *)
Definition rgb565 (c : Z) : rgb :=
  let r := Z.land (Z.shiftr c 11) 0x1F * 255 / 31 in
  let g := Z.land (Z.shiftr c 5) 0x3F * 255 / 63 in
  let b := Z.land c 0x1F * 255 / 31 in
  (r, g, b).

(** Lines 24-52: the list [colors] once both branches have appended. *)
Definition dxt1_colors (c0 c1 : Z) : list rgba :=
  let '(r0, g0, b0) := rgb565 c0 in
  let '(r1, g1, b1) := rgb565 c1 in
  let colors := [(r0, g0, b0, 255); (r1, g1, b1, 255)] in
  if c1 <? c0 then
    colors ++ [((2 * r0 + r1) / 3, (2 * g0 + g1) / 3, (2 * b0 + b1) / 3, 255)]
           ++ [((r0 + 2 * r1) / 3, (g0 + 2 * g1) / 3, (b0 + 2 * b1) / 3, 255)]
  else
    colors ++ [((r0 + r1) / 2, (g0 + g1) / 2, (b0 + b1) / 2, 255)]
           ++ [(0, 0, 0, 0)].

(** Lines 57-62: the body of the two pixel loops. *)
Definition dxt1_pixel (width height bx by_ indices : Z) (colors : list rgba)
    (py px : Z) (pixels : list byte) : result (list byte) :=
  let x := bx * 4 + px in
  let y := by_ * 4 + py in
  if (x <? width) && (y <? height) then
    let index_ := Z.land (Z.shiftr indices ((py * 4 + px) * 2)) 0x3 in
    let pixel_offset := (y * width + x) * 4 in
    c <- index colors index_ ;;
    set_slice pixels pixel_offset (pixel_offset + 4) (rgba_list c)
  else Ok pixels.

(** Lines 15-62: the body of the two block loops. *)
Definition dxt1_block (data : list byte) (width height block_width : Z)
    (by_ bx : Z) (pixels : list byte) : result (list byte) :=
  let block_offset := (by_ * block_width + bx) * 8 in
  if len data <? block_offset + 8 then Ok pixels
  else
    c0 <- unpack_H (slice data block_offset (block_offset + 2)) ;;
    c1 <- unpack_H (slice data (block_offset + 2) (block_offset + 4)) ;;
    indices <- unpack_I (slice data (block_offset + 4) (block_offset + 8)) ;;
    let colors := dxt1_colors c0 c1 in
    for_each (range 4) (fun py =>
      for_each (range 4) (dxt1_pixel width height bx by_ indices colors py))
      pixels.

(** Lines 8-64: allocation, the two block loops, [bytes(pixels)]. *)
Definition decompress_dxt1 (data : list byte) (width height : Z)
  : result (list byte) :=
  pixels <- bytearray (width * height * 4) ;;
  let block_width := (width + 3) / 4 in
  let block_height := (height + 3) / 4 in
  for_each (range block_height) (fun by_ =>
    for_each (range block_width)
      (dxt1_block data width height block_width by_))
    pixels.

(** ** decompress_dxt5 (bimage.py 66-128) *)

(** Lines 84-91: the list [alphas]. *)
Definition dxt5_alphas (a0 a1 : Z) : list Z :=
  let alphas := [a0; a1] in
  if a1 <? a0 then
    alphas ++ ((fun i => ((7 - i) * a0 + i * a1) / 7) <$> seqZ 1 6)
  else
    alphas ++ ((fun i => ((5 - i) * a0 + i * a1) / 5) <$> seqZ 1 4)
           ++ [0; 255].

(** Lines 98-114: the list [colors]; BC3 has no punch-through branch. *)
Definition dxt5_colors (c0 c1 : Z) : list rgb :=
  let '(r0, g0, b0) := rgb565 c0 in
  let '(r1, g1, b1) := rgb565 c1 in
  [(r0, g0, b0); (r1, g1, b1);
   ((2 * r0 + r1) / 3, (2 * g0 + g1) / 3, (2 * b0 + b1) / 3);
   ((r0 + 2 * r1) / 3, (g0 + 2 * g1) / 3, (b0 + 2 * b1) / 3)].

(** Lines 118-126: the body of the two pixel loops. *)
Definition dxt5_pixel (width height bx by_ indices alpha_indices : Z)
    (colors : list rgb) (alphas : list Z)
    (py px : Z) (pixels : list byte) : result (list byte) :=
  let x := bx * 4 + px in
  let y := by_ * 4 + py in
  if (x <? width) && (y <? height) then
    let color_idx := Z.land (Z.shiftr indices ((py * 4 + px) * 2)) 0x3 in
    let alpha_idx := Z.land (Z.shiftr alpha_indices ((py * 4 + px) * 3)) 0x7 in
    let pixel_offset := (y * width + x) * 4 in
    c <- index colors color_idx ;;
    pixels <- set_slice pixels pixel_offset (pixel_offset + 3) (rgb_list c) ;;
    a <- index alphas alpha_idx ;;
    set_item pixels (pixel_offset + 3) a
  else Ok pixels.

(** Lines 75-126: the body of the two block loops. *)
Definition dxt5_block (data : list byte) (width height block_width : Z)
    (by_ bx : Z) (pixels : list byte) : result (list byte) :=
  let block_offset := (by_ * block_width + bx) * 16 in
  if len data <? block_offset + 16 then Ok pixels
  else
    a0 <- index data block_offset ;;
    a1 <- index data (block_offset + 1) ;;
    q <- unpack_Q (slice data block_offset (block_offset + 8)) ;;
    let alpha_indices := Z.shiftr q 16 in
    let alphas := dxt5_alphas (byte_val a0) (byte_val a1) in
    c0 <- unpack_H (slice data (block_offset + 8) (block_offset + 10)) ;;
    c1 <- unpack_H (slice data (block_offset + 10) (block_offset + 12)) ;;
    indices <- unpack_I (slice data (block_offset + 12) (block_offset + 16)) ;;
    let colors := dxt5_colors c0 c1 in
    for_each (range 4) (fun py =>
      for_each (range 4)
        (dxt5_pixel width height bx by_ indices alpha_indices colors alphas py))
      pixels.

(** Lines 68-128: allocation, the two block loops, [bytes(pixels)]. *)
Definition decompress_dxt5 (data : list byte) (width height : Z)
  : result (list byte) :=
  pixels <- bytearray (width * height * 4) ;;
  let block_width := (width + 3) / 4 in
  let block_height := (height + 3) / 4 in
  for_each (range block_height) (fun by_ =>
    for_each (range block_width)
      (dxt5_block data width height block_width by_))
    pixels.

(** ** The decoders under the interpreter's allocation limits *)

(** What the interpreter allows: [maxsize] is [sys.maxsize], the largest
    size an object may have; [alloc_ok k n] tells whether the [k]-th buffer
    a call allocates, of [n] bytes, can be had (MemoryError otherwise). *)
Record platform : Type := {
  maxsize : Z;
  alloc_ok : nat -> Z -> bool
}.

(** [bytearray(n)] on a platform: a count that does not fit an index-sized
    integer raises OverflowError, a negative one ValueError, and the
    allocation itself may raise MemoryError. *)
Definition bytearray_on (pf : platform) (n : Z) : result (list byte) :=
  if (n <? - maxsize pf - 1) || (maxsize pf <? n) then Raise OverflowError
  else if n <? 0 then Raise ValueError
  else if alloc_ok pf 0 n then Ok (replicate (Z.to_nat n) x00)
  else Raise MemoryError.

(** [bytes(pixels)] on a platform: a second buffer of the same size. *)
Definition bytes_on (pf : platform) (pixels : list byte) : result (list byte) :=
  if alloc_ok pf 1 (len pixels) then Ok pixels else Raise MemoryError.

(** Lines 8-64 with the two buffer allocations of lines 8 and 64 subject to
    the platform. *)
Definition decompress_dxt1_on (pf : platform) (data : list byte)
    (width height : Z) : result (list byte) :=
  pixels <- bytearray_on pf (width * height * 4) ;;
  let block_width := (width + 3) / 4 in
  let block_height := (height + 3) / 4 in
  pixels <- for_each (range block_height) (fun by_ =>
              for_each (range block_width)
                (dxt1_block data width height block_width by_))
              pixels ;;
  bytes_on pf pixels.

(** Lines 68-128 with the two buffer allocations of lines 68 and 128 subject
    to the platform. *)
Definition decompress_dxt5_on (pf : platform) (data : list byte)
    (width height : Z) : result (list byte) :=
  pixels <- bytearray_on pf (width * height * 4) ;;
  let block_width := (width + 3) / 4 in
  let block_height := (height + 3) / 4 in
  pixels <- for_each (range block_height) (fun by_ =>
              for_each (range block_width)
                (dxt5_block data width height block_width by_))
              pixels ;;
  bytes_on pf pixels.

(** A 64-bit CPython whose memory never runs out. *)
Definition cpython64 : platform :=
  {| maxsize := 2 ^ 63 - 1; alloc_ok := fun _ _ => true |}.

(** A 64-bit CPython that cannot give a buffer above 4 GiB. *)
Definition cpython64_4gib : platform :=
  {| maxsize := 2 ^ 63 - 1; alloc_ok := fun _ n => n <=? 2 ^ 32 |}.

(** ** convert_bimage, the dispatch (bimage.py 186-194) *)

(** Lines 186-194 of [convert_bimage]: the decoder is chosen by the format
    byte; an unknown format is reported and nothing is decoded. *)
Definition decode_by_format (fmt : Z) (image_data : list byte)
    (width height : Z) : option (result (list byte)) :=
  if fmt =? 0x0B then Some (decompress_dxt5 image_data width height)
  else if fmt =? 0x0A then Some (decompress_dxt1 image_data width height)
  else None.

(** ** write_png (bimage.py 130-160) *)

(** The byte [v mod 256]. *)
Definition byte_of_Z (v : Z) : byte :=
  default x00 (Byte.of_N (Z.to_N (v mod 256))).

(** The [n] low bytes of [v], least significant first. *)
Fixpoint le_bytes (n : nat) (v : Z) : list byte :=
  match n with
  | O => []
  | S n' => byte_of_Z v :: le_bytes n' (v / 256)
  end.

(** The [n]-byte big-endian encoding of [v]. *)
Definition be_bytes (n : nat) (v : Z) : list byte := reverse (le_bytes n v).

(** The format characters [write_png] uses: [I] (4 bytes), [B] (1 byte). *)
Inductive fmt_char : Type := fI | fB.

(** The number of bytes a format character packs. *)
Definition fmt_size (c : fmt_char) : nat :=
  match c with
  | fI => 4%nat
  | fB => 1%nat
  end.

(** [struct.pack('>' + fmt, *args)]: every argument must fit its unsigned
    field and the argument count must match the format, else struct.error. *)
Fixpoint pack_be (fmt : list fmt_char) (args : list Z) : result (list byte) :=
  match fmt, args with
  | [], [] => Ok []
  | c :: fmt', v :: args' =>
      if (0 <=? v) && (v <? 256 ^ Z.of_nat (fmt_size c)) then
        rest <- pack_be fmt' args' ;;
        Ok (be_bytes (fmt_size c) v ++ rest)
      else Raise StructError
  | _, _ => Raise StructError
  end.

(** Line 138 and the chunk tags of lines 142, 152 and 156. *)
Definition png_signature : list byte :=
  [x89; x50; x4e; x47; x0d; x0a; x1a; x0a].      (* b'\x89PNG\r\n\x1a\n' *)
Definition tag_IHDR : list byte := [x49; x48; x44; x52].
Definition tag_IDAT : list byte := [x49; x44; x41; x54].
Definition tag_IEND : list byte := [x49; x45; x4e; x44].

Section WritePng.

(** [zlib] is an external library: [zlib.compress(data, level)] and
    [zlib.crc32(data)] are parameters of the embedding. *)
Variable zlib_compress : list byte -> Z -> list byte.
Variable zlib_crc32 : list byte -> Z.

(** Lines 146-149: one iteration of the scanline loop. *)
Definition png_row (width : Z) (rgba_data : list byte) (y : Z)
    (raw : list byte) : result (list byte) :=
  let raw := raw ++ [x00] in
  Ok (raw ++ slice rgba_data (y * width * 4) ((y + 1) * width * 4)).

(** The bytes [write_png] hands to [f.write]; the file itself is outside
    the embedding. *)
Definition write_png (width height : Z) (rgba_data : list byte)
  : result (list byte) :=
  let png_data := png_signature in
  ihdr <- pack_be [fI; fI; fB; fB; fB; fB; fB] [width; height; 8; 6; 0; 0; 0] ;;
  l <- pack_be [fI] [13] ;;
  let png_data := png_data ++ l ++ tag_IHDR ++ ihdr in
  c <- pack_be [fI] [Z.land (zlib_crc32 (tag_IHDR ++ ihdr)) 0xffffffff] ;;
  let png_data := png_data ++ c in
  raw <- for_each (range height) (png_row width rgba_data) [] ;;
  let compressed := zlib_compress raw 9 in
  l <- pack_be [fI] [len compressed] ;;
  let png_data := png_data ++ l ++ tag_IDAT ++ compressed in
  c <- pack_be [fI] [Z.land (zlib_crc32 (tag_IDAT ++ compressed)) 0xffffffff] ;;
  let png_data := png_data ++ c in
  l <- pack_be [fI] [0] ;;
  let png_data := png_data ++ l ++ tag_IEND in
  c <- pack_be [fI] [Z.land (zlib_crc32 tag_IEND) 0xffffffff] ;;
  let png_data := png_data ++ c in
  Ok png_data.

End WritePng.

(** * Definitions used to state the properties *)

(** ** Loop bodies

    A loop body is judged against a buffer invariant [I] and a family of
    facts [Q p] (one per pixel [p]) that, once true, stay true: the body
    returns, keeps [I] and every [Q p], and makes [Q p] true for the pixels
    in [T]. *)
Definition step_ok {S P : Type} (I : S -> Prop) (Q : P -> S -> Prop)
    (T : P -> Prop) (f : S -> result S) : Prop :=
  forall s, I s ->
    exists s', f s = Ok s' /\ I s' /\
      (forall p, Q p s -> Q p s') /\ (forall p, T p -> Q p s').

(** ** Reading and writing pixels *)

(** An int a [bytearray] accepts. *)
Definition is_byte (v : Z) : Prop := 0 <= v < 256.

(** [list(buf[off:off+4])] *)
Definition read4 (buf : list byte) (off : Z) : list Z :=
  byte_val <$> slice buf off (off + 4).

(** [buf'] is [buf] with the four bytes at [off] replaced by [vs]: same
    length, [vs] read back at [off], every disjoint aligned read unchanged. *)
Definition wrote4 (buf buf' : list byte) (off : Z) (vs : list Z) : Prop :=
  len buf' = len buf /\
  read4 buf' off = vs /\
  forall off', 0 <= off' -> off' + 4 <= len buf ->
    off' + 4 <= off \/ off + 4 <= off' ->
    read4 buf' off' = read4 buf off'.

(** Line 61: the offset of pixel [(x, y)]. *)
Definition pixel_offset (width x y : Z) : Z := (y * width + x) * 4.

(** The pixel at [(x, y)] of a row-major RGBA buffer, as four ints. *)
Definition pixel_at (buf : list byte) (width x y : Z) : list Z :=
  read4 buf (pixel_offset width x y).

(** The buffer has the size it was allocated with. *)
Definition buf_inv (width height : Z) (pixels : list byte) : Prop :=
  len pixels = width * height * 4.

(** Pixel [p = (x, y)], when inside the image, holds [E x y]. *)
Definition pixel_is (E : Z -> Z -> list Z) (width height : Z)
    (p : Z * Z) (pixels : list byte) : Prop :=
  0 <= p.1 < width -> 0 <= p.2 < height ->
  pixel_at pixels width p.1 p.2 = E p.1 p.2.

(** ** What each decoder leaves in a pixel *)

(** The four ints the BC1 block at [block_offset] of [data] gives the pixel
    in row [py], column [px] of its patch (lines 19-52 and 60). *)
Definition dxt1_decoded (data : list byte) (block_offset py px : Z) : list Z :=
  let c0 := le_int (slice data block_offset (block_offset + 2)) in
  let c1 := le_int (slice data (block_offset + 2) (block_offset + 4)) in
  let indices := le_int (slice data (block_offset + 4) (block_offset + 8)) in
  let index_ := Z.land (Z.shiftr indices ((py * 4 + px) * 2)) 0x3 in
  match dxt1_colors c0 c1 !! Z.to_nat index_ with
  | Some c => rgba_list c
  | None => []
  end.

(** The final content of pixel [(x, y)]: blank when its block is cut off by
    the end of [data], the block's decoding otherwise. *)
Definition dxt1_expected (data : list byte) (width x y : Z) : list Z :=
  let block_offset := (y / 4 * ((width + 3) / 4) + x / 4) * 8 in
  if len data <? block_offset + 8 then [0; 0; 0; 0]
  else dxt1_decoded data block_offset (y mod 4) (x mod 4).

(** [data[i]] as an int, for [i] in range. *)
Definition byte_at (data : list byte) (i : Z) : Z :=
  match data !! Z.to_nat i with
  | Some b => byte_val b
  | None => 0
  end.

(** The four ints the BC3 block at [block_offset] of [data] gives the pixel
    in row [py], column [px] of its patch (lines 80-114 and 121-126). *)
Definition dxt5_decoded (data : list byte) (block_offset py px : Z) : list Z :=
  let a0 := byte_at data block_offset in
  let a1 := byte_at data (block_offset + 1) in
  let alpha_indices :=
    Z.shiftr (le_int (slice data block_offset (block_offset + 8))) 16 in
  let c0 := le_int (slice data (block_offset + 8) (block_offset + 10)) in
  let c1 := le_int (slice data (block_offset + 10) (block_offset + 12)) in
  let indices := le_int (slice data (block_offset + 12) (block_offset + 16)) in
  let color_idx := Z.land (Z.shiftr indices ((py * 4 + px) * 2)) 0x3 in
  let alpha_idx := Z.land (Z.shiftr alpha_indices ((py * 4 + px) * 3)) 0x7 in
  match dxt5_colors c0 c1 !! Z.to_nat color_idx,
        dxt5_alphas a0 a1 !! Z.to_nat alpha_idx with
  | Some c, Some a => rgb_list c ++ [a]
  | _, _ => []
  end.

(** The final content of pixel [(x, y)], as for BC1 with stride 16. *)
Definition dxt5_expected (data : list byte) (width x y : Z) : list Z :=
  let block_offset := (y / 4 * ((width + 3) / 4) + x / 4) * 16 in
  if len data <? block_offset + 16 then [0; 0; 0; 0]
  else dxt5_decoded data block_offset (y mod 4) (x mod 4).

(** ** One block taken on its own *)

(** Pixel [(r, c)] of the 4x4 patch of an 8-byte BC1 block. *)
Definition bc1_block_pixel (block : list byte) (r c : Z) : list Z :=
  dxt1_decoded block 0 r c.

(** Pixel [(r, c)] of the 4x4 patch of a 16-byte BC3 block. *)
Definition bc3_block_pixel (block : list byte) (r c : Z) : list Z :=
  dxt5_decoded block 0 r c.

(** The two packed endpoints, the palette and the 2-bit index of pixel
    [(r, c)] of an 8-byte BC1 block (lines 19-21, 24-52, 60). *)
Definition bc1_c0 (block : list byte) : Z := le_int (slice block 0 2).

Definition bc1_c1 (block : list byte) : Z := le_int (slice block 2 4).

Definition bc1_palette (block : list byte) : list rgba :=
  dxt1_colors (bc1_c0 block) (bc1_c1 block).

Definition bc1_index (block : list byte) (r c : Z) : Z :=
  Z.land (Z.shiftr (le_int (slice block 4 8)) ((r * 4 + c) * 2)) 0x3.

(** The 3-bit alpha index of pixel [(r, c)] of a BC3 block (lines 82, 122). *)
Definition bc3_alpha_index (block : list byte) (r c : Z) : Z :=
  Z.land (Z.shiftr (Z.shiftr (le_int (slice block 0 8)) 16) ((r * 4 + c) * 3)) 0x7.

(** The alpha ramp [decompress_dxt5] builds for a block (lines 80-91). *)
Definition bc3_ramp (block : list byte) : list Z :=
  dxt5_alphas (byte_at block 0) (byte_at block 1).

(** The 5-6-5 fields of a packed colour, as the format defines them: red in
    bits 11-15, green in bits 5-10, blue in bits 0-4. *)
Definition red5 (c : Z) : Z := (c / 2 ^ 11) mod 2 ^ 5.

Definition green6 (c : Z) : Z := (c / 2 ^ 5) mod 2 ^ 6.

Definition blue5 (c : Z) : Z := c mod 2 ^ 5.

(** The 8-bit expansion of a packed colour by multiply and truncating
    divide, with alpha 255. *)
Definition expand_565 (c : Z) : list Z :=
  [red5 c * 255 ÷ 31; green6 c * 255 ÷ 63; blue5 c * 255 ÷ 31; 255].

(** ** The PNG stream *)

(** The scanline stream [raw] as the loop of lines 146-149 builds it, for a
    buffer of any length: each row is whatever the slice gives. *)
Definition png_raw (width height : Z) (rgba_data : list byte) : list byte :=
  concat ((fun y => x00 :: slice rgba_data (y * width * 4) ((y + 1) * width * 4))
            <$> range height).

(** The scanline stream as the format describes it: for each row, top to
    bottom, the filter byte 0 and then that row's [width * 4] bytes. *)
Definition scanline_stream (width height : Z) (rgba_data : list byte)
  : list byte :=
  concat ((fun y => x00 :: take (Z.to_nat (width * 4))
                              (drop (Z.to_nat (y * (width * 4))) rgba_data))
            <$> range height).

(** The unsigned integer a byte string holds, most significant byte first. *)
Definition be_int (bs : list byte) : Z :=
  fold_left (fun acc b => acc * 256 + byte_val b) bs 0.

(** A chunk: 4-byte big-endian data length, 4-byte tag, data, 4-byte
    big-endian CRC-32 of tag and data. *)
Definition png_chunk (crc32 : list byte -> Z) (tag data : list byte)
  : list byte :=
  be_bytes 4 (len data) ++ tag ++ data ++ be_bytes 4 (crc32 (tag ++ data)).

(** The whole file: signature, IHDR, one IDAT, IEND. *)
Definition png_file (compress : list byte -> Z -> list byte)
    (crc32 : list byte -> Z) (width height : Z) (raw : list byte)
  : list byte :=
  png_signature
  ++ png_chunk crc32 tag_IHDR
       (be_bytes 4 width ++ be_bytes 4 height ++ [x08; x06; x00; x00; x00])
  ++ png_chunk crc32 tag_IDAT (compress raw 9)
  ++ png_chunk crc32 tag_IEND [].

(** [write_png] returns a stream for this buffer whatever zlib computes, as
    long as the compressed data fits the 4-byte length field. *)
Definition png_written (width height : Z) (rgba_data : list byte) : Prop :=
  forall (zlib_compress : list byte -> Z -> list byte)
         (zlib_crc32 : list byte -> Z),
    len (zlib_compress (png_raw width height rgba_data) 9) < 2 ^ 32 ->
    exists png,
      write_png zlib_compress zlib_crc32 width height rgba_data = Ok png.

(** ** Sample blocks *)

(** A sample BC1 block: c0 = 0x001F (blue), c1 = 0x07E0 (green), indices
    0x0000001B. *)
Definition sample_bc1 : list byte :=
  [x1f; x00; xe0; x07; x1b; x00; x00; x00].

(** A sample BC3 block: a0 = 255, a1 = 0, first alpha index 2, then the
    colour sub-block [sample_bc1]. *)
Definition sample_bc3 : list byte :=
  [xff; x00; x02; x00; x00; x00; x00; x00] ++ sample_bc1.

(** A BC3 block with [a0 = 0 <= a1 = 255]. *)
Definition sample_bc3_low : list byte :=
  [x00; xff; x02; x00; x00; x00; x00; x00] ++ sample_bc1.

(** A solid BC1 block: both endpoints 0xFFE0, all indices 0. *)
Definition sample_bc1_solid : list byte :=
  [xe0; xff; xe0; xff; x00; x00; x00; x00].

(** ** convert_bimage (bimage.py 162-206) *)

(** [struct.unpack(fmt, bs)[0]] for a single big-endian unsigned field of
    [n] bytes; a buffer of another size raises struct.error. *)
Definition unpack_be (n : nat) (bs : list byte) : result Z :=
  if decide (length bs = n) then Ok (be_int bs) else Raise StructError.

(** [f.seek(pos); f.read(n)] on a file holding [content]: at most [n]
    bytes, fewer or none when the file ends first. *)
Definition file_read (content : list byte) (pos n : Z) : list byte :=
  slice content pos (pos + n).

(** [f.seek(pos); f.read()]: everything from [pos] to the end. *)
Definition file_read_rest (content : list byte) (pos : Z) : list byte :=
  slice content pos (len content).

(** Lines 165-202, the body of the [try]: [Ok (Some png)] when [write_png]
    was reached and wrote [png] (the function then returns True),
    [Ok None] for an unknown format (it returns False), [Raise e] when an
    exception leaves the body. The file names and the printing are left
    out, and so is every failure of the platform (opening, reading or
    writing a file, running out of memory): each of those is caught and
    makes the function return False. *)
Definition convert_bimage_body (zlib_compress : list byte -> Z -> list byte)
    (zlib_crc32 : list byte -> Z) (content : list byte)
  : result (option (list byte)) :=
  width <- unpack_be 2 (file_read content 0x0E 2) ;;
  height <- unpack_be 2 (file_read content 0x12 2) ;;
  b <- index (file_read content 0x23 1) 0 ;;
  let fmt := byte_val b in
  let image_data := file_read_rest content 0x48 in
  match decode_by_format fmt image_data width height with
  | Some decoded =>
      rgba <- decoded ;;
      png <- write_png zlib_compress zlib_crc32 width height rgba ;;
      Ok (Some png)
  | None => Ok None
  end.

(** Lines 164-206: [except Exception] turns every exception into the return
    value False. [Some png] stands for True with [png] written, [None] for
    False with nothing written. *)
Definition convert_bimage (zlib_compress : list byte -> Z -> list byte)
    (zlib_crc32 : list byte -> Z) (content : list byte)
  : option (list byte) :=
  match convert_bimage_body zlib_compress zlib_crc32 content with
  | Ok written => written
  | Raise _ => None
  end.

(** The header fields of a .bimage file, for a file long enough to hold
    them: width at 0x0E, height at 0x12 (big-endian 16-bit), format at
    0x23, payload from 0x48. *)
Definition bimage_width (content : list byte) : Z :=
  be_int (slice content 0x0E 0x10).

Definition bimage_height (content : list byte) : Z :=
  be_int (slice content 0x12 0x14).

Definition bimage_format (content : list byte) : Z := byte_at content 0x23.

Definition bimage_payload (content : list byte) : list byte :=
  drop 0x48%nat content.

(** A sample file of 80 bytes: width 2, height 1, format 0x0A, and one BC1
    block as payload. *)
Definition sample_bimage : list byte :=
  replicate 14 x00 ++ [x00; x02] ++ [x00; x00] ++ [x00; x01]
  ++ replicate 15 x00 ++ [x0a] ++ replicate 36 x00 ++ sample_bc1.

(** ** Reading the scanline stream back *)

(** The pixel bytes of a scanline stream of [height] rows of [width] RGBA
    pixels: each row without its leading filter byte. *)
Definition strip_filter_bytes (width height : Z) (raw : list byte) : list byte :=
  concat ((fun y => slice raw (y * (1 + width * 4) + 1) ((y + 1) * (1 + width * 4)))
            <$> range height).

(** A BC3 block with colour endpoints [c0 = 0x07E0 > c1 = 0x001F]. *)
Definition sample_bc3_four : list byte :=
  [xff; x00; x02; x00; x00; x00; x00; x00;
   xe0; x07; x1f; x00; x1b; x00; x00; x00].

(** * Reasoning about loops *)

Section Loops.

Context {S P : Type}.
Variable I : S -> Prop.
Variable Q : P -> S -> Prop.

Lemma step_ok_skip : step_ok I Q (fun _ => False) (fun s => Ok s).
Proof. intros s Hs. exists s. repeat split; auto. intros p []. Qed.

Lemma step_ok_weaken (T T' : P -> Prop) f :
  (forall p, T' p -> T p) -> step_ok I Q T f -> step_ok I Q T' f.
Proof.
  intros HT Hf s Hs. destruct (Hf s Hs) as (s' & E & Hi & Hq & Ht).
  exists s'. repeat split; auto.
Qed.

Lemma for_each_step_ok (T : Z -> P -> Prop) (l : list Z) body :
  (forall k, k ∈ l -> step_ok I Q (T k) (body k)) ->
  step_ok I Q (fun p => exists k, k ∈ l /\ T k p) (for_each l body).
Proof.
  induction l as [|k l IH]; intros Hbody s Hs; simpl.
  - exists s. repeat split; auto.
    intros p (k & Hk & _). inversion Hk.
  - destruct (Hbody k (list_elem_of_here _ _) s Hs) as (s1 & E1 & Hi1 & Hq1 & Ht1).
    rewrite E1. simpl.
    destruct (IH (fun k' Hk' => Hbody k' (list_elem_of_further _ _ _ Hk')) s1 Hi1)
      as (s2 & E2 & Hi2 & Hq2 & Ht2).
    exists s2. repeat split; auto.
    intros p (k' & Hk' & Hp). apply elem_of_cons in Hk' as [->|Hk'].
    + auto.
    + apply Ht2. eauto.
Qed.

End Loops.

Lemma elem_of_range (n k : Z) : k ∈ range n <-> 0 <= k < n.
Proof. unfold range. rewrite elem_of_seqZ. lia. Qed.

(** * Python sequence operations, in range *)

Lemma len_nonneg {A : Type} (l : list A) : 0 <= len l.
Proof. unfold len. lia. Qed.

Lemma norm_index_id (n i : Z) : 0 <= i <= n -> norm_index n i = i.
Proof.
  intros H. unfold norm_index.
  destruct (Z.ltb_spec i 0); lia.
Qed.

Lemma slice_take_drop {A : Type} (l : list A) (i j : Z) :
  0 <= i <= j -> j <= len l ->
  slice l i j = take (Z.to_nat (j - i)) (drop (Z.to_nat i) l).
Proof.
  intros Hij Hj. unfold slice.
  rewrite !norm_index_id by lia. reflexivity.
Qed.

Lemma slice_length {A : Type} (l : list A) (i j : Z) :
  0 <= i <= j -> j <= len l -> length (slice l i j) = Z.to_nat (j - i).
Proof.
  intros Hij Hj. rewrite slice_take_drop by assumption.
  rewrite length_take, length_drop. unfold len in Hj. lia.
Qed.

Lemma slice_lookup {A : Type} (l : list A) (i j : Z) (k : nat) :
  0 <= i <= j -> j <= len l -> (k < Z.to_nat (j - i))%nat ->
  slice l i j !! k = l !! (Z.to_nat i + k)%nat.
Proof.
  intros Hij Hj Hk. rewrite slice_take_drop by assumption.
  rewrite lookup_take_lt by assumption. apply lookup_drop.
Qed.

(** A slice of a slice is a slice of the whole. *)
Lemma slice_slice {A : Type} (l : list A) (o n i j : Z) :
  0 <= o -> o + n <= len l -> 0 <= i <= j -> j <= n ->
  slice (slice l o (o + n)) i j = slice l (o + i) (o + j).
Proof.
  intros Ho Hn Hij Hj.
  assert (Hlen : len (slice l o (o + n)) = n).
  { unfold len. rewrite slice_length by lia. lia. }
  apply list_eq. intros k.
  destruct (decide (k < Z.to_nat (j - i))%nat) as [Hk|Hk].
  - rewrite slice_lookup by lia.
    rewrite slice_lookup by lia.
    rewrite slice_lookup by lia.
    f_equal. lia.
  - rewrite !(proj2 (lookup_ge_None _ _)); auto.
    + rewrite slice_length by lia. lia.
    + rewrite slice_length by lia. lia.
Qed.

Lemma index_ok {A : Type} (l : list A) (i : Z) :
  0 <= i < len l -> exists x, index l i = Ok x /\ l !! Z.to_nat i = Some x.
Proof.
  intros Hi. unfold index.
  destruct (Z.ltb_spec i 0); [lia|].
  destruct (Z.ltb_spec i 0); [lia|].
  destruct (Z.leb_spec (len l) i); [lia|]. simpl.
  destruct (l !! Z.to_nat i) as [x|] eqn:E; [eauto|].
  apply lookup_ge_None in E. unfold len in Hi. lia.
Qed.

Lemma byte_val_range (b : byte) : 0 <= byte_val b < 256.
Proof.
  unfold byte_val. pose proof (Byte.to_N_bounded b). lia.
Qed.

Lemma to_byte_ok (v : Z) :
  0 <= v < 256 -> exists b, to_byte v = Ok b /\ byte_val b = v.
Proof.
  intros Hv. unfold to_byte.
  destruct (Z.ltb_spec v 0); [lia|].
  destruct (Byte.of_N (Z.to_N v)) as [b|] eqn:E.
  - exists b. split; [reflexivity|].
    unfold byte_val. apply Byte.to_of_N in E. rewrite E. lia.
  - apply Byte.of_N_None_iff in E. lia.
Qed.

Lemma to_bytes_ok (vs : list Z) :
  Forall is_byte vs ->
  exists bs, to_bytes vs = Ok bs /\ byte_val <$> bs = vs.
Proof.
  induction 1 as [|v vs Hv _ (bs & E & Hbs)]; simpl.
  - exists []. auto.
  - destruct (to_byte_ok v Hv) as (b & Eb & Hb).
    rewrite Eb, E. simpl. exists (b :: bs). split; [reflexivity|].
    rewrite fmap_cons, Hb, Hbs. reflexivity.
Qed.

Lemma unpack_le_slice (n : nat) (data : list byte) (i j : Z) :
  0 <= i -> j = i + Z.of_nat n -> j <= len data ->
  unpack_le n (slice data i j) = Ok (le_int (slice data i j)).
Proof.
  intros Hi -> Hj. unfold unpack_le.
  rewrite slice_length by lia.
  destruct (decide (Z.to_nat (i + Z.of_nat n - i) = n)); [reflexivity|lia].
Qed.

(** ** Reading a pixel back: [list(buf[off:off+4])] *)

Lemma read4_ext (buf buf' : list byte) (off : Z) :
  0 <= off -> off + 4 <= len buf -> len buf' = len buf ->
  (forall k : nat, (k < 4)%nat ->
     buf' !! (Z.to_nat off + k)%nat = buf !! (Z.to_nat off + k)%nat) ->
  read4 buf' off = read4 buf off.
Proof.
  intros Ho Hl Hlen Hk. unfold read4. f_equal.
  apply list_eq. intros k.
  destruct (decide (k < 4)%nat) as [Hlt|Hge].
  - rewrite !slice_lookup by lia. auto.
  - rewrite !(proj2 (lookup_ge_None _ _)); auto;
      rewrite slice_length by lia; lia.
Qed.

Lemma read4_replicate (n off : Z) :
  0 <= off -> off + 4 <= n ->
  read4 (replicate (Z.to_nat n) x00) off = [0; 0; 0; 0].
Proof.
  intros Ho Hn. unfold read4.
  assert (Hl : len (replicate (Z.to_nat n) x00) = n).
  { unfold len. rewrite length_replicate. lia. }
  apply list_eq. intros k.
  rewrite list_lookup_fmap.
  destruct (decide (k < 4)%nat) as [Hlt|Hge].
  - rewrite slice_lookup by lia.
    rewrite lookup_replicate_2 by lia.
    do 4 (destruct k as [|k]; [reflexivity|]). lia.
  - rewrite (proj2 (lookup_ge_None _ _)).
    + do 4 (destruct k as [|k]; [lia|]). reflexivity.
    + rewrite slice_length by lia. lia.
Qed.

(** ** Writing four bytes at an offset *)

Lemma read4_lookup (buf : list byte) (off : Z) (vs : list Z) :
  0 <= off -> off + 4 <= len buf -> length vs = 4%nat ->
  (forall k : nat, (k < 4)%nat ->
     byte_val <$> buf !! (Z.to_nat off + k)%nat = vs !! k) ->
  read4 buf off = vs.
Proof.
  intros Ho Hl Hvs Hk. unfold read4.
  apply list_eq. intros k. rewrite list_lookup_fmap.
  destruct (decide (k < 4)%nat) as [Hlt|Hge].
  - rewrite slice_lookup by lia. auto.
  - rewrite !(proj2 (lookup_ge_None _ _)); auto; [lia|].
    rewrite slice_length by lia. lia.
Qed.

Lemma set_slice_ok (buf : list byte) (off : Z) (vs : list Z) :
  0 <= off -> off + len vs <= len buf -> Forall is_byte vs ->
  exists buf', set_slice buf off (off + len vs) vs = Ok buf' /\
    len buf' = len buf /\
    (forall k : nat, (k < length vs)%nat ->
       byte_val <$> buf' !! (Z.to_nat off + k)%nat = vs !! k) /\
    (forall k : nat,
       (k < Z.to_nat off \/ Z.to_nat off + length vs <= k)%nat ->
       buf' !! k = buf !! k).
Proof.
  intros Ho Hl Hvs. unfold set_slice.
  destruct (to_bytes_ok vs Hvs) as (bs & E & Hbs). rewrite E. simpl.
  assert (Hlb : length bs = length vs).
  { rewrite <- Hbs. rewrite length_fmap. reflexivity. }
  pose proof (len_nonneg vs) as Hv0.
  rewrite !norm_index_id by lia.
  rewrite Z.max_r by lia.
  unfold len in *.
  assert (Ht : length (take (Z.to_nat off) buf) = Z.to_nat off).
  { rewrite length_take. lia. }
  eexists. split; [reflexivity|]. split; [|split].
  - rewrite !length_app, Ht, length_drop. lia.
  - intros k Hk.
    rewrite lookup_app_r by lia.
    rewrite Ht. replace (Z.to_nat off + k - Z.to_nat off)%nat with k by lia.
    rewrite lookup_app_l by lia.
    rewrite <- Hbs. rewrite list_lookup_fmap. reflexivity.
  - intros k [Hk|Hk].
    + rewrite lookup_app_l by lia. apply lookup_take_lt. lia.
    + rewrite lookup_app_r by lia.
      rewrite lookup_app_r by lia.
      rewrite lookup_drop. f_equal. lia.
Qed.

Lemma set_item_ok (buf : list byte) (i v : Z) :
  0 <= i < len buf -> is_byte v ->
  exists buf', set_item buf i v = Ok buf' /\
    len buf' = len buf /\
    byte_val <$> buf' !! Z.to_nat i = Some v /\
    (forall k : nat, k <> Z.to_nat i -> buf' !! k = buf !! k).
Proof.
  intros Hi Hv. unfold set_item.
  destruct (to_byte_ok v Hv) as (b & E & Hb). rewrite E. simpl.
  destruct (Z.ltb_spec i 0); [lia|].
  destruct (Z.ltb_spec i 0); [lia|].
  destruct (Z.leb_spec (len buf) i); [lia|]. simpl.
  eexists. split; [reflexivity|]. unfold len in *. split; [|split].
  - rewrite length_insert. reflexivity.
  - rewrite list_lookup_insert_eq by lia. simpl. congruence.
  - intros k Hk. apply list_lookup_insert_ne. auto.
Qed.

(** Line 62: [pixels[pixel_offset:pixel_offset+4] = colors[index]]. *)
Lemma set_slice_wrote4 (buf : list byte) (off : Z) (vs : list Z) :
  0 <= off -> off + 4 <= len buf -> length vs = 4%nat -> Forall is_byte vs ->
  exists buf', set_slice buf off (off + 4) vs = Ok buf' /\
    wrote4 buf buf' off vs.
Proof.
  intros Ho Hl Hn Hvs.
  assert (Hlv : len vs = 4) by (unfold len; lia).
  destruct (set_slice_ok buf off vs) as (buf' & E & Hlen & Hin & Hout);
    try assumption; try lia.
  rewrite Hlv in E. exists buf'. split; [exact E|].
  split; [exact Hlen|]. split.
  - apply read4_lookup; try lia. intros k Hk. apply Hin. lia.
  - intros off' Ho' Hl' Hdis.
    apply read4_ext; try lia. intros k Hk. apply Hout. lia.
Qed.

(** Lines 125-126: three colour bytes by slice, then the alpha byte. *)
Lemma set_slice_item_wrote4 (buf : list byte) (off : Z) (vs : list Z) (a : Z) :
  0 <= off -> off + 4 <= len buf -> length vs = 3%nat ->
  Forall is_byte vs -> is_byte a ->
  exists buf1 buf', set_slice buf off (off + 3) vs = Ok buf1 /\
    set_item buf1 (off + 3) a = Ok buf' /\
    wrote4 buf buf' off (vs ++ [a]).
Proof.
  intros Ho Hl Hn Hvs Ha.
  assert (Hlv : len vs = 3) by (unfold len; lia).
  destruct (set_slice_ok buf off vs) as (buf1 & E1 & Hlen1 & Hin1 & Hout1);
    try assumption; try lia.
  rewrite Hlv in E1.
  destruct (set_item_ok buf1 (off + 3) a) as (buf' & E2 & Hlen2 & Hin2 & Hout2);
    try assumption; try lia.
  exists buf1, buf'. split; [exact E1|]. split; [exact E2|].
  split; [lia|]. split.
  - apply read4_lookup; try lia.
    { rewrite length_app. simpl. lia. }
    intros k Hk. destruct (decide (k < 3)%nat) as [Hlt|Hge].
    + rewrite Hout2 by lia. rewrite Hin1 by lia.
      rewrite lookup_app_l by lia. reflexivity.
    + assert (k = 3%nat) as -> by lia.
      replace (Z.to_nat off + 3)%nat with (Z.to_nat (off + 3)) by lia.
      rewrite Hin2. rewrite lookup_app_r by lia.
      rewrite Hn. reflexivity.
  - intros off' Ho' Hl' Hdis.
    apply read4_ext; try lia. intros k Hk.
    rewrite Hout2 by lia. apply Hout1. lia.
Qed.

(** ** Pixel geometry *)

Lemma pixel_offset_bounds (width height x y : Z) :
  0 <= x < width -> 0 <= y < height ->
  0 <= pixel_offset width x y /\
  pixel_offset width x y + 4 <= width * height * 4.
Proof. intros Hx Hy. unfold pixel_offset. nia. Qed.

Lemma pixel_offset_disjoint (width x y x' y' : Z) :
  0 <= x < width -> 0 <= x' < width -> 0 <= y -> 0 <= y' ->
  (x, y) <> (x', y') ->
  pixel_offset width x' y' + 4 <= pixel_offset width x y \/
  pixel_offset width x y + 4 <= pixel_offset width x' y'.
Proof.
  intros Hx Hx' Hy Hy' Hne. unfold pixel_offset.
  destruct (Z.lt_total y y') as [Hlt|[Heq|Hgt]].
  - right. nia.
  - subst y'. destruct (Z.lt_total x x') as [?|[?|?]]; [right; lia| |left; lia].
    subst x'. congruence.
  - left. nia.
Qed.

(** * Value ranges of the palettes *)

Lemma land_ones_range (a n : Z) : 0 <= n -> 0 <= Z.land a (Z.ones n) < 2 ^ n.
Proof.
  intros Hn. rewrite Z.land_ones by assumption.
  apply Z.mod_pos_bound. apply Z.pow_pos_nonneg; lia.
Qed.

Lemma field5_range (a : Z) : 0 <= Z.land a 0x1F < 32.
Proof. exact (land_ones_range a 5 ltac:(lia)). Qed.

Lemma field6_range (a : Z) : 0 <= Z.land a 0x3F < 64.
Proof. exact (land_ones_range a 6 ltac:(lia)). Qed.

Lemma index2_range (a : Z) : 0 <= Z.land a 0x3 < 4.
Proof. exact (land_ones_range a 2 ltac:(lia)). Qed.

Lemma index3_range (a : Z) : 0 <= Z.land a 0x7 < 8.
Proof. exact (land_ones_range a 3 ltac:(lia)). Qed.

(** Linear arithmetic with [//] and [%] by constants. *)
Ltac divlia := Z.to_euclidean_division_equations; lia.

(** Closes [Forall is_byte [v1; ...; vn]] by arithmetic on each entry. *)
Ltac all_bytes :=
  unfold is_byte in *;
  repeat (apply List.Forall_cons; [try divlia|]); try apply List.Forall_nil.

Lemma rgb565_range (c : Z) : Forall is_byte (rgb_list (rgb565 c)).
Proof.
  unfold rgb565, rgb_list, is_byte.
  pose proof (field5_range (Z.shiftr c 11)).
  pose proof (field6_range (Z.shiftr c 5)).
  pose proof (field5_range c).
  all_bytes.
Qed.

Lemma dxt1_colors_length (c0 c1 : Z) : length (dxt1_colors c0 c1) = 4%nat.
Proof.
  unfold dxt1_colors.
  destruct (rgb565 c0) as [[r0 g0] b0], (rgb565 c1) as [[r1 g1] b1].
  destruct (c1 <? c0); reflexivity.
Qed.

Lemma dxt1_colors_range (c0 c1 : Z) :
  Forall (fun col => Forall is_byte (rgba_list col)) (dxt1_colors c0 c1).
Proof.
  unfold dxt1_colors.
  pose proof (rgb565_range c0) as H0. pose proof (rgb565_range c1) as H1.
  destruct (rgb565 c0) as [[r0 g0] b0], (rgb565 c1) as [[r1 g1] b1].
  simpl in H0, H1. rewrite !Forall_cons in H0, H1. unfold is_byte in *.
  destruct (c1 <? c0); simpl; repeat (apply List.Forall_cons; [all_bytes|]);
    apply List.Forall_nil.
Qed.

Lemma dxt5_colors_length (c0 c1 : Z) : length (dxt5_colors c0 c1) = 4%nat.
Proof.
  unfold dxt5_colors.
  destruct (rgb565 c0) as [[r0 g0] b0], (rgb565 c1) as [[r1 g1] b1].
  reflexivity.
Qed.

Lemma dxt5_colors_range (c0 c1 : Z) :
  Forall (fun col => Forall is_byte (rgb_list col)) (dxt5_colors c0 c1).
Proof.
  unfold dxt5_colors.
  pose proof (rgb565_range c0) as H0. pose proof (rgb565_range c1) as H1.
  destruct (rgb565 c0) as [[r0 g0] b0], (rgb565 c1) as [[r1 g1] b1].
  simpl in H0, H1. rewrite !Forall_cons in H0, H1. unfold is_byte in *.
  simpl; repeat (apply List.Forall_cons; [all_bytes|]); apply List.Forall_nil.
Qed.

(** The list [alphas], written out entry by entry. *)
Lemma dxt5_alphas_unfold (a0 a1 : Z) :
  dxt5_alphas a0 a1 =
  if a1 <? a0 then
    [a0; a1; (6 * a0 + 1 * a1) / 7; (5 * a0 + 2 * a1) / 7;
     (4 * a0 + 3 * a1) / 7; (3 * a0 + 4 * a1) / 7;
     (2 * a0 + 5 * a1) / 7; (1 * a0 + 6 * a1) / 7]
  else
    [a0; a1; (4 * a0 + 1 * a1) / 5; (3 * a0 + 2 * a1) / 5;
     (2 * a0 + 3 * a1) / 5; (1 * a0 + 4 * a1) / 5; 0; 255].
Proof. unfold dxt5_alphas. destruct (a1 <? a0); reflexivity. Qed.

Lemma dxt5_alphas_length (a0 a1 : Z) : length (dxt5_alphas a0 a1) = 8%nat.
Proof. rewrite dxt5_alphas_unfold. destruct (a1 <? a0); reflexivity. Qed.

Lemma dxt5_alphas_range (a0 a1 : Z) :
  is_byte a0 -> is_byte a1 -> Forall is_byte (dxt5_alphas a0 a1).
Proof.
  unfold is_byte. intros H0 H1. rewrite dxt5_alphas_unfold.
  destruct (a1 <? a0); all_bytes.
Qed.

(** * What the decoders leave in each pixel *)

Lemma wrote4_step (E : Z -> Z -> list Z) (width height x y : Z)
    (s s' : list byte) :
  0 <= x < width -> 0 <= y < height ->
  buf_inv width height s ->
  wrote4 s s' (pixel_offset width x y) (E x y) ->
  buf_inv width height s' /\
  (forall p, pixel_is E width height p s -> pixel_is E width height p s') /\
  pixel_is E width height (x, y) s'.
Proof.
  intros Hx Hy Hs (Hlen & Hrd & Hfr). unfold buf_inv in *.
  split; [lia|]. split.
  - intros [x' y'] Hp Hx' Hy'. simpl in *.
    destruct (decide ((x, y) = (x', y'))) as [Heq|Hne].
    + inversion Heq; subst. exact Hrd.
    + unfold pixel_at. rewrite Hfr.
      * apply Hp; assumption.
      * apply (pixel_offset_bounds width height); assumption.
      * rewrite Hs. apply (pixel_offset_bounds width height); assumption.
      * apply pixel_offset_disjoint; auto; lia.
  - intros _ _. exact Hrd.
Qed.

(** ** BC1 *)

Lemma dxt1_pixel_step (data : list byte) (width height by_ bx py px : Z) :
  let block_offset := (by_ * ((width + 3) / 4) + bx) * 8 in
  let c0 := le_int (slice data block_offset (block_offset + 2)) in
  let c1 := le_int (slice data (block_offset + 2) (block_offset + 4)) in
  let indices := le_int (slice data (block_offset + 4) (block_offset + 8)) in
  0 <= by_ -> 0 <= bx -> 0 <= py < 4 -> 0 <= px < 4 ->
  block_offset + 8 <= len data ->
  step_ok (buf_inv width height) (pixel_is (dxt1_expected data width) width height)
    (fun p => p = (bx * 4 + px, by_ * 4 + py))
    (dxt1_pixel width height bx by_ indices (dxt1_colors c0 c1) py px).
Proof.
  intros block_offset c0 c1 indices Hby Hbx Hpy Hpx Hin s Hs.
  unfold dxt1_pixel.
  set (x := bx * 4 + px). set (y := by_ * 4 + py).
  destruct (Z.ltb_spec x width) as [Hx|Hx];
    [destruct (Z.ltb_spec y height) as [Hy|Hy]|]; simpl.
  - set (index_ := Z.land (Z.shiftr indices ((py * 4 + px) * 2)) 3).
    pose proof (index2_range (Z.shiftr indices ((py * 4 + px) * 2))) as Hidx.
    fold index_ in Hidx.
    destruct (index_ok (dxt1_colors c0 c1) index_) as (c & Ec & Hc).
    { unfold len. rewrite dxt1_colors_length. lia. }
    rewrite Ec. simpl.
    assert (HE : dxt1_expected data width x y = rgba_list c).
    { unfold dxt1_expected.
      replace (y / 4) with by_ by (unfold y; divlia).
      replace (x / 4) with bx by (unfold x; divlia).
      replace (y mod 4) with py by (unfold y; divlia).
      replace (x mod 4) with px by (unfold x; divlia).
      fold block_offset.
      destruct (Z.ltb_spec (len data) (block_offset + 8)); [lia|].
      unfold dxt1_decoded. fold c0 c1 indices index_. rewrite Hc. reflexivity. }
    assert (Hcb : Forall is_byte (rgba_list c)).
    { pose proof (dxt1_colors_range c0 c1) as Hall.
      rewrite List.Forall_forall in Hall. apply Hall.
      apply list_elem_of_In. eapply list_elem_of_lookup_2. exact Hc. }
    assert (Hx0 : 0 <= x < width) by (unfold x; lia).
    assert (Hy0 : 0 <= y < height) by (unfold y; lia).
    pose proof (pixel_offset_bounds width height x y Hx0 Hy0) as [Ho1 Ho2].
    destruct (set_slice_wrote4 s (pixel_offset width x y) (rgba_list c))
      as (s' & Es & Hw); try assumption.
    { rewrite Hs. exact Ho2. }
    { destruct c as [[[? ?] ?] ?]. reflexivity. }
    unfold pixel_offset in Es. rewrite Es.
    rewrite <- HE in Hw.
    destruct (wrote4_step _ width height x y s s' Hx0 Hy0 Hs Hw)
      as (Hi & Hq & Ht).
    exists s'. repeat split; auto.
    intros p ->. exact Ht.
  - exists s. repeat split; auto.
    intros p -> _ Hy'. simpl in Hy'. fold y in Hy'. lia.
  - exists s. repeat split; auto.
    intros p -> Hx' _. simpl in Hx'. fold x in Hx'. lia.
Qed.

Lemma dxt1_block_step (data : list byte) (width height by_ bx : Z) :
  let block_width := (width + 3) / 4 in
  0 <= width -> 0 <= by_ -> 0 <= bx ->
  step_ok (buf_inv width height) (pixel_is (dxt1_expected data width) width height)
    (fun p => (by_ * block_width + bx) * 8 + 8 <= len data /\
              0 <= p.1 /\ 0 <= p.2 /\ p.1 / 4 = bx /\ p.2 / 4 = by_)
    (dxt1_block data width height block_width by_ bx).
Proof.
  intros block_width Hw Hby Hbx. unfold dxt1_block.
  assert (Hbw : 0 <= block_width) by (unfold block_width; divlia).
  set (block_offset := (by_ * block_width + bx) * 8).
  assert (Ho : 0 <= block_offset) by (unfold block_offset; nia).
  destruct (Z.ltb_spec (len data) (block_offset + 8)) as [Hcut|Hin].
  - eapply step_ok_weaken; [|apply step_ok_skip].
    intros p (? & _). simpl. lia.
  - unfold unpack_H, unpack_I.
    rewrite !(unpack_le_slice _ data) by lia. cbn [bind].
    eapply step_ok_weaken;
      [|apply (for_each_step_ok _ _
                 (fun py p => exists px, px ∈ range 4 /\
                                p = (bx * 4 + px, by_ * 4 + py)))].
    + intros [x y] (_ & Hx & Hy & <- & <-). simpl in *.
      exists (y mod 4). split; [apply elem_of_range; divlia|].
      exists (x mod 4). split; [apply elem_of_range; divlia|].
      f_equal; divlia.
    + intros py Hpy%elem_of_range.
      apply (for_each_step_ok _ _ (fun px p => p = (bx * 4 + px, by_ * 4 + py))).
      intros px Hpx%elem_of_range.
      apply dxt1_pixel_step; assumption.
Qed.

Lemma dxt1_loops_step (data : list byte) (width height : Z) :
  let block_width := (width + 3) / 4 in
  let block_height := (height + 3) / 4 in
  0 <= width ->
  step_ok (buf_inv width height) (pixel_is (dxt1_expected data width) width height)
    (fun p => 0 <= p.1 < width /\ 0 <= p.2 < height /\
              (p.2 / 4 * block_width + p.1 / 4) * 8 + 8 <= len data)
    (for_each (range block_height) (fun by_ =>
       for_each (range block_width)
         (dxt1_block data width height block_width by_))).
Proof.
  intros block_width block_height Hw.
  eapply step_ok_weaken;
    [|apply (for_each_step_ok _ _
               (fun by_ p => exists bx, bx ∈ range block_width /\
                  (by_ * block_width + bx) * 8 + 8 <= len data /\
                  0 <= p.1 /\ 0 <= p.2 /\ p.1 / 4 = bx /\ p.2 / 4 = by_))].
  - intros [x y] (Hx & Hy & Hin). simpl in *.
    exists (y / 4). split; [apply elem_of_range; unfold block_height; divlia|].
    exists (x / 4). split; [apply elem_of_range; unfold block_width; divlia|].
    repeat split; auto; lia.
  - intros by_ Hby%elem_of_range.
    apply (for_each_step_ok _ _
             (fun bx p => (by_ * block_width + bx) * 8 + 8 <= len data /\
                0 <= p.1 /\ 0 <= p.2 /\ p.1 / 4 = bx /\ p.2 / 4 = by_)).
    intros bx Hbx%elem_of_range.
    apply dxt1_block_step; lia.
Qed.

(** Every pixel of the image [decompress_dxt1] returns, for dimensions that
    are not negative. *)
Lemma dxt1_pixels (data : list byte) (width height : Z) :
  0 <= width -> 0 <= height ->
  exists out, decompress_dxt1 data width height = Ok out /\
    len out = width * height * 4 /\
    forall x y, 0 <= x < width -> 0 <= y < height ->
      pixel_at out width x y = dxt1_expected data width x y.
Proof.
  intros Hw Hh. unfold decompress_dxt1, bytearray.
  destruct (Z.ltb_spec (width * height * 4) 0); [nia|]. cbn [bind].
  set (s0 := replicate (Z.to_nat (width * height * 4)) x00).
  assert (Hs0 : buf_inv width height s0).
  { unfold buf_inv, len, s0. rewrite length_replicate. lia. }
  destruct (dxt1_loops_step data width height Hw s0 Hs0)
    as (out & E & Hi & Hq & Ht).
  exists out. split; [exact E|]. split; [exact Hi|].
  intros x y Hx Hy.
  destruct (Z.le_gt_cases ((y / 4 * ((width + 3) / 4) + x / 4) * 8 + 8) (len data))
    as [Hin|Hcut].
  - apply (Ht (x, y)); simpl; auto.
  - apply (Hq (x, y)); simpl; auto.
    intros _ _. simpl. unfold pixel_at, s0.
    rewrite read4_replicate
      by (apply (pixel_offset_bounds width height); assumption).
    unfold dxt1_expected.
    destruct (Z.ltb_spec (len data) ((y / 4 * ((width + 3) / 4) + x / 4) * 8 + 8));
      [reflexivity|lia].
Qed.

(** ** BC3 *)

Lemma byte_at_range (data : list byte) (i : Z) : is_byte (byte_at data i).
Proof.
  unfold byte_at, is_byte. destruct (data !! Z.to_nat i).
  - apply byte_val_range.
  - lia.
Qed.

Lemma index_byte_at (data : list byte) (i : Z) :
  0 <= i < len data ->
  exists b, index data i = Ok b /\ byte_val b = byte_at data i.
Proof.
  intros Hi. destruct (index_ok data i Hi) as (b & E & Hb).
  exists b. split; [exact E|]. unfold byte_at. rewrite Hb. reflexivity.
Qed.

Lemma dxt5_pixel_step (data : list byte) (width height by_ bx py px : Z) :
  let block_offset := (by_ * ((width + 3) / 4) + bx) * 16 in
  let a0 := byte_at data block_offset in
  let a1 := byte_at data (block_offset + 1) in
  let alpha_indices :=
    Z.shiftr (le_int (slice data block_offset (block_offset + 8))) 16 in
  let c0 := le_int (slice data (block_offset + 8) (block_offset + 10)) in
  let c1 := le_int (slice data (block_offset + 10) (block_offset + 12)) in
  let indices := le_int (slice data (block_offset + 12) (block_offset + 16)) in
  0 <= by_ -> 0 <= bx -> 0 <= py < 4 -> 0 <= px < 4 ->
  block_offset + 16 <= len data ->
  step_ok (buf_inv width height) (pixel_is (dxt5_expected data width) width height)
    (fun p => p = (bx * 4 + px, by_ * 4 + py))
    (dxt5_pixel width height bx by_ indices alpha_indices
       (dxt5_colors c0 c1) (dxt5_alphas a0 a1) py px).
Proof.
  intros block_offset a0 a1 alpha_indices c0 c1 indices Hby Hbx Hpy Hpx Hin s Hs.
  unfold dxt5_pixel.
  set (x := bx * 4 + px). set (y := by_ * 4 + py).
  destruct (Z.ltb_spec x width) as [Hx|Hx];
    [destruct (Z.ltb_spec y height) as [Hy|Hy]|]; simpl.
  - set (color_idx := Z.land (Z.shiftr indices ((py * 4 + px) * 2)) 3).
    set (alpha_idx := Z.land (Z.shiftr alpha_indices ((py * 4 + px) * 3)) 7).
    pose proof (index2_range (Z.shiftr indices ((py * 4 + px) * 2))) as Hci.
    pose proof (index3_range (Z.shiftr alpha_indices ((py * 4 + px) * 3))) as Hai.
    fold color_idx in Hci. fold alpha_idx in Hai.
    destruct (index_ok (dxt5_colors c0 c1) color_idx) as (c & Ec & Hc).
    { unfold len. rewrite dxt5_colors_length. lia. }
    destruct (index_ok (dxt5_alphas a0 a1) alpha_idx) as (a & Ea & Ha).
    { unfold len. rewrite dxt5_alphas_length. lia. }
    assert (HE : dxt5_expected data width x y = rgb_list c ++ [a]).
    { unfold dxt5_expected.
      replace (y / 4) with by_ by (unfold y; divlia).
      replace (x / 4) with bx by (unfold x; divlia).
      replace (y mod 4) with py by (unfold y; divlia).
      replace (x mod 4) with px by (unfold x; divlia).
      fold block_offset.
      destruct (Z.ltb_spec (len data) (block_offset + 16)); [lia|].
      unfold dxt5_decoded.
      fold a0 a1 alpha_indices c0 c1 indices color_idx alpha_idx.
      rewrite Hc, Ha. reflexivity. }
    assert (Hcb : Forall is_byte (rgb_list c)).
    { pose proof (dxt5_colors_range c0 c1) as Hall.
      rewrite List.Forall_forall in Hall. apply Hall.
      apply list_elem_of_In. eapply list_elem_of_lookup_2. exact Hc. }
    assert (Hab : is_byte a).
    { pose proof (dxt5_alphas_range a0 a1 (byte_at_range _ _) (byte_at_range _ _))
        as Hall.
      rewrite List.Forall_forall in Hall. apply Hall.
      apply list_elem_of_In. eapply list_elem_of_lookup_2. exact Ha. }
    assert (Hx0 : 0 <= x < width) by (unfold x; lia).
    assert (Hy0 : 0 <= y < height) by (unfold y; lia).
    pose proof (pixel_offset_bounds width height x y Hx0 Hy0) as [Ho1 Ho2].
    destruct (set_slice_item_wrote4 s (pixel_offset width x y) (rgb_list c) a)
      as (s1 & s' & Es1 & Es' & Hw); try assumption.
    { rewrite Hs. exact Ho2. }
    { destruct c as [[? ?] ?]. reflexivity. }
    unfold pixel_offset in Es1, Es'.
    rewrite Ec. cbn [bind]. rewrite Es1. cbn [bind].
    rewrite Ea. cbn [bind]. rewrite Es'.
    rewrite <- HE in Hw.
    destruct (wrote4_step _ width height x y s s' Hx0 Hy0 Hs Hw)
      as (Hi & Hq & Ht).
    exists s'. repeat split; auto.
    intros p ->. exact Ht.
  - exists s. repeat split; auto.
    intros p -> _ Hy'. simpl in Hy'. fold y in Hy'. lia.
  - exists s. repeat split; auto.
    intros p -> Hx' _. simpl in Hx'. fold x in Hx'. lia.
Qed.

Lemma dxt5_block_step (data : list byte) (width height by_ bx : Z) :
  let block_width := (width + 3) / 4 in
  0 <= width -> 0 <= by_ -> 0 <= bx ->
  step_ok (buf_inv width height) (pixel_is (dxt5_expected data width) width height)
    (fun p => (by_ * block_width + bx) * 16 + 16 <= len data /\
              0 <= p.1 /\ 0 <= p.2 /\ p.1 / 4 = bx /\ p.2 / 4 = by_)
    (dxt5_block data width height block_width by_ bx).
Proof.
  intros block_width Hw Hby Hbx. unfold dxt5_block.
  assert (Hbw : 0 <= block_width) by (unfold block_width; divlia).
  set (block_offset := (by_ * block_width + bx) * 16).
  assert (Ho : 0 <= block_offset) by (unfold block_offset; nia).
  destruct (Z.ltb_spec (len data) (block_offset + 16)) as [Hcut|Hin].
  - eapply step_ok_weaken; [|apply step_ok_skip].
    intros p (? & _). simpl. lia.
  - destruct (index_byte_at data block_offset) as (b0 & E0 & H0); [lia|].
    destruct (index_byte_at data (block_offset + 1)) as (b1 & E1 & H1); [lia|].
    rewrite E0, E1. cbn [bind]. rewrite H0, H1.
    unfold unpack_H, unpack_I, unpack_Q.
    rewrite !(unpack_le_slice _ data) by lia. cbn [bind].
    eapply step_ok_weaken;
      [|apply (for_each_step_ok _ _
                 (fun py p => exists px, px ∈ range 4 /\
                                p = (bx * 4 + px, by_ * 4 + py)))].
    + intros [x y] (_ & Hx & Hy & <- & <-). simpl in *.
      exists (y mod 4). split; [apply elem_of_range; divlia|].
      exists (x mod 4). split; [apply elem_of_range; divlia|].
      f_equal; divlia.
    + intros py Hpy%elem_of_range.
      apply (for_each_step_ok _ _ (fun px p => p = (bx * 4 + px, by_ * 4 + py))).
      intros px Hpx%elem_of_range.
      apply dxt5_pixel_step; assumption.
Qed.

Lemma dxt5_loops_step (data : list byte) (width height : Z) :
  let block_width := (width + 3) / 4 in
  let block_height := (height + 3) / 4 in
  0 <= width ->
  step_ok (buf_inv width height) (pixel_is (dxt5_expected data width) width height)
    (fun p => 0 <= p.1 < width /\ 0 <= p.2 < height /\
              (p.2 / 4 * block_width + p.1 / 4) * 16 + 16 <= len data)
    (for_each (range block_height) (fun by_ =>
       for_each (range block_width)
         (dxt5_block data width height block_width by_))).
Proof.
  intros block_width block_height Hw.
  eapply step_ok_weaken;
    [|apply (for_each_step_ok _ _
               (fun by_ p => exists bx, bx ∈ range block_width /\
                  (by_ * block_width + bx) * 16 + 16 <= len data /\
                  0 <= p.1 /\ 0 <= p.2 /\ p.1 / 4 = bx /\ p.2 / 4 = by_))].
  - intros [x y] (Hx & Hy & Hin). simpl in *.
    exists (y / 4). split; [apply elem_of_range; unfold block_height; divlia|].
    exists (x / 4). split; [apply elem_of_range; unfold block_width; divlia|].
    repeat split; auto; lia.
  - intros by_ Hby%elem_of_range.
    apply (for_each_step_ok _ _
             (fun bx p => (by_ * block_width + bx) * 16 + 16 <= len data /\
                0 <= p.1 /\ 0 <= p.2 /\ p.1 / 4 = bx /\ p.2 / 4 = by_)).
    intros bx Hbx%elem_of_range.
    apply dxt5_block_step; lia.
Qed.

(** Every pixel of the image [decompress_dxt5] returns, for dimensions that
    are not negative. *)
Lemma dxt5_pixels (data : list byte) (width height : Z) :
  0 <= width -> 0 <= height ->
  exists out, decompress_dxt5 data width height = Ok out /\
    len out = width * height * 4 /\
    forall x y, 0 <= x < width -> 0 <= y < height ->
      pixel_at out width x y = dxt5_expected data width x y.
Proof.
  intros Hw Hh. unfold decompress_dxt5, bytearray.
  destruct (Z.ltb_spec (width * height * 4) 0); [nia|]. cbn [bind].
  set (s0 := replicate (Z.to_nat (width * height * 4)) x00).
  assert (Hs0 : buf_inv width height s0).
  { unfold buf_inv, len, s0. rewrite length_replicate. lia. }
  destruct (dxt5_loops_step data width height Hw s0 Hs0)
    as (out & E & Hi & Hq & Ht).
  exists out. split; [exact E|]. split; [exact Hi|].
  intros x y Hx Hy.
  destruct (Z.le_gt_cases ((y / 4 * ((width + 3) / 4) + x / 4) * 16 + 16) (len data))
    as [Hin|Hcut].
  - apply (Ht (x, y)); simpl; auto.
  - apply (Hq (x, y)); simpl; auto.
    intros _ _. simpl. unfold pixel_at, s0.
    rewrite read4_replicate
      by (apply (pixel_offset_bounds width height); assumption).
    unfold dxt5_expected.
    destruct (Z.ltb_spec (len data) ((y / 4 * ((width + 3) / 4) + x / 4) * 16 + 16));
      [reflexivity|lia].
Qed.

(** ** One block taken on its own *)

Lemma byte_at_slice (data : list byte) (o n i : Z) :
  0 <= o -> o + n <= len data -> 0 <= i < n ->
  byte_at (slice data o (o + n)) i = byte_at data (o + i).
Proof.
  intros Ho Hn Hi. unfold byte_at.
  rewrite slice_lookup by lia.
  replace (Z.to_nat o + Z.to_nat i)%nat with (Z.to_nat (o + i)) by lia.
  reflexivity.
Qed.



(** A 4x4 image of one BC1 block. *)
Lemma dxt1_single_block (block : list byte) :
  length block = 8%nat ->
  exists out, decompress_dxt1 block 4 4 = Ok out /\ len out = 64 /\
    forall x y, 0 <= x < 4 -> 0 <= y < 4 ->
      pixel_at out 4 x y = bc1_block_pixel block y x.
Proof.
  intros Hb.
  destruct (dxt1_pixels block 4 4) as (out & E & Hl & Hp); try lia.
  exists out. split; [exact E|]. split; [exact Hl|].
  intros x y Hx Hy. rewrite (Hp x y Hx Hy).
  unfold dxt1_expected, bc1_block_pixel.
  replace (y / 4) with 0 by divlia. replace (x / 4) with 0 by divlia.
  replace (y mod 4) with y by divlia. replace (x mod 4) with x by divlia.
  unfold len. rewrite Hb. reflexivity.
Qed.

(** A 4x4 image of one BC3 block. *)
Lemma dxt5_single_block (block : list byte) :
  length block = 16%nat ->
  exists out, decompress_dxt5 block 4 4 = Ok out /\ len out = 64 /\
    forall x y, 0 <= x < 4 -> 0 <= y < 4 ->
      pixel_at out 4 x y = bc3_block_pixel block y x.
Proof.
  intros Hb.
  destruct (dxt5_pixels block 4 4) as (out & E & Hl & Hp); try lia.
  exists out. split; [exact E|]. split; [exact Hl|].
  intros x y Hx Hy. rewrite (Hp x y Hx Hy).
  unfold dxt5_expected, bc3_block_pixel.
  replace (y / 4) with 0 by divlia. replace (x / 4) with 0 by divlia.
  replace (y mod 4) with y by divlia. replace (x mod 4) with x by divlia.
  unfold len. rewrite Hb. reflexivity.
Qed.

(** * The decoders as a whole *)





Lemma decompress_dxt1_on_allocated (pf : platform) (data : list byte)
    (width height : Z) :
  0 <= width -> 0 <= height -> width * height * 4 <= maxsize pf ->
  alloc_ok pf 0 (width * height * 4) = true ->
  alloc_ok pf 1 (width * height * 4) = true ->
  decompress_dxt1_on pf data width height = decompress_dxt1 data width height.
Proof.
  intros Hw Hh Hm H0 H1.
  destruct (dxt1_pixels data width height Hw Hh) as (out & E & Hl & _).
  rewrite E. unfold decompress_dxt1, bytearray in E.
  unfold decompress_dxt1_on, bytearray_on.
  destruct (Z.ltb_spec (width * height * 4) 0); [nia|].
  destruct (Z.ltb_spec (width * height * 4) (- maxsize pf - 1)); [lia|].
  destruct (Z.ltb_spec (maxsize pf) (width * height * 4)); [lia|].
  cbn [orb bind] in *. rewrite H0. cbn [bind]. rewrite E. cbn [bind].
  unfold bytes_on. rewrite Hl, H1. reflexivity.
Qed.

Lemma decompress_dxt5_on_allocated (pf : platform) (data : list byte)
    (width height : Z) :
  0 <= width -> 0 <= height -> width * height * 4 <= maxsize pf ->
  alloc_ok pf 0 (width * height * 4) = true ->
  alloc_ok pf 1 (width * height * 4) = true ->
  decompress_dxt5_on pf data width height = decompress_dxt5 data width height.
Proof.
  intros Hw Hh Hm H0 H1.
  destruct (dxt5_pixels data width height Hw Hh) as (out & E & Hl & _).
  rewrite E. unfold decompress_dxt5, bytearray in E.
  unfold decompress_dxt5_on, bytearray_on.
  destruct (Z.ltb_spec (width * height * 4) 0); [nia|].
  destruct (Z.ltb_spec (width * height * 4) (- maxsize pf - 1)); [lia|].
  destruct (Z.ltb_spec (maxsize pf) (width * height * 4)); [lia|].
  cbn [orb bind] in *. rewrite H0. cbn [bind]. rewrite E. cbn [bind].
  unfold bytes_on. rewrite Hl, H1. reflexivity.
Qed.

(** C10, as the code has it. For dimensions that are not negative (zero
    included) whose buffer of [width*height*4] bytes the interpreter can
    allocate (the size is at most [sys.maxsize] and neither the buffer nor
    its [bytes] copy runs out of memory), and every payload (empty, short or
    long), both decoders return, raise nothing, and the result has exactly
    [width * height * 4] bytes. Every palette lookup is a 2-bit-masked index
    into a list of 4, every alpha lookup a 3-bit-masked index into a list of
    8, and a pixel with [x < width] and [y < height] is written at an offset
    inside the buffer. *)
Theorem decoders_return_when_allocated (pf : platform) (data : list byte)
    (width height : Z) :
  0 <= width -> 0 <= height ->
  width * height * 4 <= maxsize pf ->
  alloc_ok pf 0 (width * height * 4) = true ->
  alloc_ok pf 1 (width * height * 4) = true ->
  (exists out, decompress_dxt1_on pf data width height = Ok out /\
     len out = width * height * 4) /\
  (exists out, decompress_dxt5_on pf data width height = Ok out /\
     len out = width * height * 4) /\
  (forall c0 c1 indices k,
     len (dxt1_colors c0 c1) = 4 /\
     0 <= Z.land (Z.shiftr indices k) 0x3 < 4 /\
     exists c, index (dxt1_colors c0 c1) (Z.land (Z.shiftr indices k) 0x3) = Ok c) /\
  (forall c0 c1 indices k,
     len (dxt5_colors c0 c1) = 4 /\
     exists c, index (dxt5_colors c0 c1) (Z.land (Z.shiftr indices k) 0x3) = Ok c) /\
  (forall a0 a1 alpha_indices k,
     len (dxt5_alphas a0 a1) = 8 /\
     0 <= Z.land (Z.shiftr alpha_indices k) 0x7 < 8 /\
     exists a,
       index (dxt5_alphas a0 a1) (Z.land (Z.shiftr alpha_indices k) 0x7) = Ok a) /\
  (forall x y, 0 <= x < width -> 0 <= y < height ->
     0 <= (y * width + x) * 4 /\ (y * width + x) * 4 + 4 <= width * height * 4).
Proof.
  intros Hw Hh Hm H0 H1. repeat apply conj.
  - rewrite decompress_dxt1_on_allocated by assumption.
    destruct (dxt1_pixels data width height Hw Hh) as (out & E & Hl & _).
    exists out. auto.
  - rewrite decompress_dxt5_on_allocated by assumption.
    destruct (dxt5_pixels data width height Hw Hh) as (out & E & Hl & _).
    exists out. auto.
  - intros c0 c1 indices k.
    pose proof (index2_range (Z.shiftr indices k)) as Hi.
    assert (Hl : len (dxt1_colors c0 c1) = 4)
      by (unfold len; rewrite dxt1_colors_length; reflexivity).
    repeat split; try lia.
    destruct (index_ok (dxt1_colors c0 c1) (Z.land (Z.shiftr indices k) 3))
      as (c & E & _); [lia|eauto].
  - intros c0 c1 indices k.
    pose proof (index2_range (Z.shiftr indices k)) as Hi.
    assert (Hl : len (dxt5_colors c0 c1) = 4)
      by (unfold len; rewrite dxt5_colors_length; reflexivity).
    split; [exact Hl|].
    destruct (index_ok (dxt5_colors c0 c1) (Z.land (Z.shiftr indices k) 3))
      as (c & E & _); [lia|eauto].
  - intros a0 a1 alpha_indices k.
    pose proof (index3_range (Z.shiftr alpha_indices k)) as Hi.
    assert (Hl : len (dxt5_alphas a0 a1) = 8)
      by (unfold len; rewrite dxt5_alphas_length; reflexivity).
    repeat split; try lia.
    destruct (index_ok (dxt5_alphas a0 a1) (Z.land (Z.shiftr alpha_indices k) 7))
      as (a & E & _); [lia|eauto].
  - intros x y Hx Hy.
    apply (pixel_offset_bounds width height x y Hx Hy).
Qed.

(** A 5x3 BC1 image and a 4x4 BC3 image, each decoding its first block:
    palette and ramp lookups and pixel writes all take place. *)
Lemma decoders_return_when_allocated_witness :
  (exists out, decompress_dxt1_on cpython64 sample_bc1 5 3 = Ok out /\
     len out = 5 * 3 * 4) /\
  (exists out, decompress_dxt5_on cpython64 sample_bc3 4 4 = Ok out /\
     len out = 4 * 4 * 4).
Proof.
  split.
  - apply (decoders_return_when_allocated cpython64 sample_bc1 5 3);
      [lia|lia|vm_compute; discriminate|reflexivity|reflexivity].
  - apply (decoders_return_when_allocated cpython64 sample_bc3 4 4);
      [lia|lia|vm_compute; discriminate|reflexivity|reflexivity].
Defined.

(** C10, counterexample: with [width = height = 2^31] the buffer size 2^64
    exceeds [sys.maxsize] and both decoders raise OverflowError, however
    much memory there is; at 65535x65535 a platform that cannot give 4 GiB
    at once raises MemoryError. *)
Lemma decoders_raise_on_huge_dimensions :
  0 <= 2 ^ 31 /\
  decompress_dxt1_on cpython64 [] (2 ^ 31) (2 ^ 31) = Raise OverflowError /\
  decompress_dxt5_on cpython64 [] (2 ^ 31) (2 ^ 31) = Raise OverflowError /\
  decompress_dxt1_on cpython64_4gib [] 65535 65535 = Raise MemoryError /\
  decompress_dxt5_on cpython64_4gib [] 65535 65535 = Raise MemoryError.
Proof. repeat split; try lia; reflexivity. Qed.

Lemma for_each_empty_inner {S : Type} (l : list Z)
    (body : Z -> Z -> S -> result S) (s : S) :
  for_each l (fun k => for_each [] (body k)) s = Ok s.
Proof. induction l; simpl; auto. Qed.

(** C3, as the code has it. Neither decoder checks its dimensions: with
    [width = 0] or [height = 0] both return the empty buffer for every
    payload, and so does the dispatch on either known format code. *)
Theorem zero_dimension_gives_empty_buffer (data : list byte) (width height : Z) :
  width = 0 \/ height = 0 ->
  decompress_dxt1 data width height = Ok [] /\
  decompress_dxt5 data width height = Ok [] /\
  decode_by_format 0x0A data width height = Some (Ok []) /\
  decode_by_format 0x0B data width height = Some (Ok []).
Proof.
  intros Hz.
  assert (H1 : decompress_dxt1 data width height = Ok []).
  { unfold decompress_dxt1.
    replace (width * height * 4) with 0 by (destruct Hz; subst; lia).
    cbn [bytearray Z.ltb Z.compare bind Z.to_nat replicate].
    destruct Hz as [-> | ->].
    - apply for_each_empty_inner.
    - reflexivity. }
  assert (H5 : decompress_dxt5 data width height = Ok []).
  { unfold decompress_dxt5.
    replace (width * height * 4) with 0 by (destruct Hz; subst; lia).
    cbn [bytearray Z.ltb Z.compare bind Z.to_nat replicate].
    destruct Hz as [-> | ->].
    - apply for_each_empty_inner.
    - reflexivity. }
  unfold decode_by_format. simpl. rewrite H1, H5. auto.
Qed.

(** Width 0, height 4. *)
Lemma zero_dimension_gives_empty_buffer_witness :
  decompress_dxt1 sample_bc1 0 4 = Ok [] /\
  decompress_dxt5 sample_bc1 0 4 = Ok [] /\
  decode_by_format 0x0A sample_bc1 0 4 = Some (Ok []) /\
  decode_by_format 0x0B sample_bc1 0 4 = Some (Ok []).
Proof. apply (zero_dimension_gives_empty_buffer sample_bc1 0 4). left. reflexivity. Defined.

(** C3, counterexample: zero dimensions raise nothing. *)
Lemma zero_dimension_not_rejected :
  decompress_dxt1 sample_bc1 0 0 = Ok [] /\
  decompress_dxt5 sample_bc3 4 0 = Ok [] /\
  decode_by_format 0x0A sample_bc1 0 4 = Some (Ok []).
Proof. repeat split; vm_compute; reflexivity. Qed.

(** * BC3 alpha ramp *)

(** The fourth byte of a decoded BC3 pixel is the ramp entry its index
    selects. *)
Lemma bc3_block_pixel_alpha (block : list byte) (r c : Z) :
  bc3_block_pixel block r c !! 3%nat
  = bc3_ramp block !! Z.to_nat (bc3_alpha_index block r c).
Proof.
  unfold bc3_block_pixel, dxt5_decoded, bc3_ramp, bc3_alpha_index.
  rewrite !Z.add_0_l.
  set (cs := dxt5_colors _ _). set (ci := Z.land _ 3).
  set (al := dxt5_alphas _ _). set (ai := Z.land _ 7).
  destruct (cs !! Z.to_nat ci) as [[[cr cg] cb]|] eqn:Ec.
  - destruct (al !! Z.to_nat ai); reflexivity.
  - apply lookup_ge_None in Ec. unfold cs in Ec.
    rewrite dxt5_colors_length in Ec.
    pose proof (index2_range (Z.shiftr (le_int (slice block 12 16)) ((r * 4 + c) * 2))).
    fold ci in H. lia.
Qed.

Lemma decoded_alpha_from_ramp (block : list byte) :
  length block = 16%nat ->
  exists out, decompress_dxt5 block 4 4 = Ok out /\
    forall x y, 0 <= x < 4 -> 0 <= y < 4 ->
      pixel_at out 4 x y !! 3%nat
      = bc3_ramp block !! Z.to_nat (bc3_alpha_index block y x).
Proof.
  intros Hb. destruct (dxt5_single_block block Hb) as (out & E & _ & Hp).
  exists out. split; [exact E|]. intros x y Hx Hy.
  rewrite (Hp x y Hx Hy). apply bc3_block_pixel_alpha.
Qed.

(** C1, as the code has it. For every 16-byte BC3 block with [a0 = 255] and
    [a1 = 0] the ramp is [255, 0, 218, 182, 145, 109, 72, 36] (floor of
    [(7-i)*255/7] for [i = 1..6]), and the alpha byte of each decoded pixel
    is the entry of this list its 3-bit index selects. *)
Theorem alpha_ramp_255_0 (block : list byte) :
  length block = 16%nat -> byte_at block 0 = 255 -> byte_at block 1 = 0 ->
  bc3_ramp block = [255; 0; 218; 182; 145; 109; 72; 36] /\
  exists out, decompress_dxt5 block 4 4 = Ok out /\
    forall x y, 0 <= x < 4 -> 0 <= y < 4 ->
      pixel_at out 4 x y !! 3%nat
      = [255; 0; 218; 182; 145; 109; 72; 36] !! Z.to_nat (bc3_alpha_index block y x).
Proof.
  intros Hb H0 H1.
  assert (Hr : bc3_ramp block = [255; 0; 218; 182; 145; 109; 72; 36]).
  { unfold bc3_ramp. rewrite H0, H1. reflexivity. }
  split; [exact Hr|].
  destruct (decoded_alpha_from_ramp block Hb) as (out & E & Hp).
  exists out. split; [exact E|]. intros x y Hx Hy.
  rewrite (Hp x y Hx Hy), Hr. reflexivity.
Qed.

(** The sample block with endpoints 255 and 0. *)
Lemma alpha_ramp_255_0_witness :
  bc3_ramp sample_bc3 = [255; 0; 218; 182; 145; 109; 72; 36] /\
  exists out, decompress_dxt5 sample_bc3 4 4 = Ok out /\
    forall x y, 0 <= x < 4 -> 0 <= y < 4 ->
      pixel_at out 4 x y !! 3%nat
      = [255; 0; 218; 182; 145; 109; 72; 36]
          !! Z.to_nat (bc3_alpha_index sample_bc3 y x).
Proof. apply (alpha_ramp_255_0 sample_bc3); reflexivity. Defined.

(** C1, counterexample: on a block with [a0 = 255], [a1 = 0] the ramp is not
    the rounded list; the pixel with alpha index 2 gets alpha 218 (0xDA),
    not 219. *)
Lemma alpha_ramp_255_0_not_rounded :
  length sample_bc3 = 16%nat /\
  byte_at sample_bc3 0 = 255 /\ byte_at sample_bc3 1 = 0 /\
  bc3_ramp sample_bc3 <> [255; 0; 219; 182; 146; 109; 73; 36] /\
  bc3_alpha_index sample_bc3 0 0 = 2 /\
  decompress_dxt5 sample_bc3 1 1 = Ok [x00; xaa; x55; xda].
Proof.
  repeat split; try (vm_compute; reflexivity).
  vm_compute. discriminate.
Qed.

(** C2, as the code has it. For every 16-byte BC3 block with [a0 <= a1]:
    [ramp[0] = a0], [ramp[1] = a1], [ramp[i] = ((6-i)*a0 + (i-1)*a1)/5]
    (truncating) for [i] in 2..5, [ramp[6] = 0], [ramp[7] = 255]; the alpha
    byte of each decoded pixel is the entry its 3-bit index selects. *)
Theorem alpha_ramp_six_entries (block : list byte) :
  length block = 16%nat -> byte_at block 0 <= byte_at block 1 ->
  bc3_ramp block !! 0%nat = Some (byte_at block 0) /\
  bc3_ramp block !! 1%nat = Some (byte_at block 1) /\
  (forall i, 2 <= i <= 5 ->
     bc3_ramp block !! Z.to_nat i
     = Some (((6 - i) * byte_at block 0 + (i - 1) * byte_at block 1) ÷ 5)) /\
  bc3_ramp block !! 6%nat = Some 0 /\
  bc3_ramp block !! 7%nat = Some 255 /\
  length (bc3_ramp block) = 8%nat /\
  exists out, decompress_dxt5 block 4 4 = Ok out /\
    forall x y, 0 <= x < 4 -> 0 <= y < 4 ->
      pixel_at out 4 x y !! 3%nat
      = bc3_ramp block !! Z.to_nat (bc3_alpha_index block y x).
Proof.
  intros Hb Hle.
  pose proof (byte_at_range block 0) as R0.
  pose proof (byte_at_range block 1) as R1. unfold is_byte in *.
  split; [|split; [|split; [|split; [|split; [|split]]]]];
    try apply (decoded_alpha_from_ramp block Hb);
    try apply dxt5_alphas_length;
    unfold bc3_ramp; rewrite dxt5_alphas_unfold;
    destruct (Z.ltb_spec (byte_at block 1) (byte_at block 0)); try lia;
    try reflexivity.
  intros i Hi.
  assert (Hc : i = 2 \/ i = 3 \/ i = 4 \/ i = 5) by lia.
  destruct Hc as [-> | [-> | [-> | ->]]]; simpl; f_equal;
    rewrite Z.quot_div_nonneg by lia; f_equal; lia.
Qed.

(** The sample block with endpoints 0 and 255. *)
Lemma alpha_ramp_six_entries_witness :
  bc3_ramp sample_bc3_low !! 2%nat = Some 51 /\
  bc3_ramp sample_bc3_low !! 6%nat = Some 0 /\
  bc3_ramp sample_bc3_low !! 7%nat = Some 255.
Proof.
  destruct (alpha_ramp_six_entries sample_bc3_low)
    as (_ & _ & Hi & H6 & H7 & _).
  - reflexivity.
  - vm_compute. discriminate.
  - split; [|split; assumption].
    exact (Hi 2 ltac:(lia)).
Defined.

(** C2, counterexample: with [a0 = 0], [a1 = 255] the entry at index 2 is
    [(4*0 + 1*255)/5 = 51], not [((5-2)*0 + 2*255)/5 = 102]. *)
Lemma alpha_ramp_index_not_weight :
  length sample_bc3_low = 16%nat /\
  byte_at sample_bc3_low 0 <= byte_at sample_bc3_low 1 /\
  bc3_ramp sample_bc3_low !! 2%nat = Some 51 /\
  ((5 - 2) * byte_at sample_bc3_low 0 + 2 * byte_at sample_bc3_low 1) ÷ 5 = 102 /\
  bc3_ramp sample_bc3_low !! 2%nat
  <> Some (((5 - 2) * byte_at sample_bc3_low 0 + 2 * byte_at sample_bc3_low 1) ÷ 5).
Proof.
  repeat split; try (vm_compute; reflexivity); vm_compute; discriminate.
Qed.

(** * BC1 palette *)

Lemma bc1_block_pixel_palette (block : list byte) (r c : Z) :
  bc1_block_pixel block r c
  = match bc1_palette block !! Z.to_nat (bc1_index block r c) with
    | Some col => rgba_list col
    | None => []
    end.
Proof. reflexivity. Qed.

Lemma land_31 (a : Z) : Z.land a 0x1F = a mod 2 ^ 5.
Proof. exact (Z.land_ones a 5 ltac:(lia)). Qed.

Lemma land_63 (a : Z) : Z.land a 0x3F = a mod 2 ^ 6.
Proof. exact (Z.land_ones a 6 ltac:(lia)). Qed.

Lemma rgb565_fields (c : Z) :
  rgb565 c = (red5 c * 255 ÷ 31, green6 c * 255 ÷ 63, blue5 c * 255 ÷ 31).
Proof.
  unfold rgb565, red5, green6, blue5.
  rewrite !land_31, land_63, !Z.shiftr_div_pow2 by lia.
  pose proof (Z.mod_pos_bound (c / 2 ^ 11) (2 ^ 5) ltac:(lia)).
  pose proof (Z.mod_pos_bound (c / 2 ^ 5) (2 ^ 6) ltac:(lia)).
  pose proof (Z.mod_pos_bound c (2 ^ 5) ltac:(lia)).
  rewrite !Z.quot_div_nonneg by lia. reflexivity.
Qed.

(** C5. For every 8-byte BC1 block whose packed endpoints satisfy
    [c0 <= c1] (equality included), the palette is the two expanded
    endpoints, then their per-channel truncating average with alpha 255,
    then (0,0,0,0); every decoded pixel is the palette entry its 2-bit
    index selects. *)
Theorem bc1_punch_through_palette (block : list byte)
    (r0 g0 b0 r1 g1 b1 : Z) :
  length block = 8%nat ->
  bc1_c0 block <= bc1_c1 block ->
  rgb565 (bc1_c0 block) = (r0, g0, b0) ->
  rgb565 (bc1_c1 block) = (r1, g1, b1) ->
  bc1_palette block !! 2%nat
  = Some ((r0 + r1) ÷ 2, (g0 + g1) ÷ 2, (b0 + b1) ÷ 2, 255) /\
  bc1_palette block !! 3%nat = Some (0, 0, 0, 0) /\
  bc1_palette block !! 0%nat = Some (r0, g0, b0, 255) /\
  bc1_palette block !! 1%nat = Some (r1, g1, b1, 255) /\
  exists out, decompress_dxt1 block 4 4 = Ok out /\
    forall x y, 0 <= x < 4 -> 0 <= y < 4 ->
      pixel_at out 4 x y
      = match bc1_palette block !! Z.to_nat (bc1_index block y x) with
        | Some col => rgba_list col
        | None => []
        end.
Proof.
  intros Hb Hle E0 E1.
  assert (Hp : bc1_palette block
               = [(r0, g0, b0, 255); (r1, g1, b1, 255);
                  ((r0 + r1) ÷ 2, (g0 + g1) ÷ 2, (b0 + b1) ÷ 2, 255);
                  (0, 0, 0, 0)]).
  { unfold bc1_palette, dxt1_colors.
    pose proof (rgb565_range (bc1_c0 block)) as R0.
    pose proof (rgb565_range (bc1_c1 block)) as R1.
    rewrite E0 in *. rewrite E1 in *.
    simpl in R0, R1. rewrite !Forall_cons in R0, R1. unfold is_byte in *.
    destruct (Z.ltb_spec (bc1_c1 block) (bc1_c0 block)); [lia|].
    rewrite !Z.quot_div_nonneg by lia. reflexivity. }
  rewrite Hp. repeat split; try reflexivity.
  destruct (dxt1_single_block block Hb) as (out & E & _ & Hpx).
  exists out. split; [exact E|]. intros x y Hx Hy.
  rewrite (Hpx x y Hx Hy), bc1_block_pixel_palette, Hp. reflexivity.
Qed.

(** The sample block: blue (0x001F) below green (0x07E0). *)
Lemma bc1_punch_through_palette_witness :
  bc1_palette sample_bc1 !! 2%nat = Some ((0 + 0) ÷ 2, (0 + 255) ÷ 2, (255 + 0) ÷ 2, 255) /\
  bc1_palette sample_bc1 !! 3%nat = Some (0, 0, 0, 0).
Proof.
  destruct (bc1_punch_through_palette sample_bc1 0 0 255 0 255 0)
    as (H2 & H3 & _).
  - reflexivity.
  - vm_compute. discriminate.
  - reflexivity.
  - reflexivity.
  - split; assumption.
Defined.

(** C8. For every 8-byte BC1 block with [c0 = c1] and all 32 index bits
    zero, the 4x4 image decoded from it has 16 identical pixels: the
    truncating 8-bit expansion [(r5*255/31, g6*255/63, b5*255/31)] of the
    endpoint's 5-6-5 fields, with alpha 255. *)
Theorem bc1_solid_block (block : list byte) :
  length block = 8%nat ->
  bc1_c0 block = bc1_c1 block ->
  le_int (slice block 4 8) = 0 ->
  exists out, decompress_dxt1 block 4 4 = Ok out /\ len out = 16 * 4 /\
    forall x y, 0 <= x < 4 -> 0 <= y < 4 ->
      pixel_at out 4 x y = expand_565 (bc1_c0 block).
Proof.
  intros Hb Hc Hi.
  destruct (dxt1_single_block block Hb) as (out & E & Hl & Hpx).
  exists out. split; [exact E|]. split; [exact Hl|]. intros x y Hx Hy.
  rewrite (Hpx x y Hx Hy), bc1_block_pixel_palette.
  unfold bc1_index. rewrite Hi, Z.shiftr_0_l. simpl (Z.to_nat _).
  unfold bc1_palette, dxt1_colors. rewrite <- Hc.
  rewrite rgb565_fields, Z.ltb_irrefl. reflexivity.
Qed.

(** The solid yellow block. *)
Lemma bc1_solid_block_witness :
  exists out, decompress_dxt1 sample_bc1_solid 4 4 = Ok out /\ len out = 16 * 4 /\
    forall x y, 0 <= x < 4 -> 0 <= y < 4 ->
      pixel_at out 4 x y = [255; 255; 0; 255].
Proof. apply (bc1_solid_block sample_bc1_solid); reflexivity. Defined.

(** * write_png *)

Lemma le_bytes_length (n : nat) (v : Z) : length (le_bytes n v) = n.
Proof. revert v. induction n; intros v; simpl; auto. Qed.

Lemma be_bytes_length (n : nat) (v : Z) : length (be_bytes n v) = n.
Proof. unfold be_bytes. rewrite length_reverse. apply le_bytes_length. Qed.

Lemma le_bytes_mod (n : nat) (v : Z) :
  le_bytes n (v mod 256 ^ Z.of_nat n) = le_bytes n v.
Proof.
  revert v. induction n as [|n IH]; intros v; [reflexivity|].
  assert (Hp : 0 < 256 ^ Z.of_nat n) by (apply Z.pow_pos_nonneg; lia).
  replace (256 ^ Z.of_nat (S n)) with (256 * 256 ^ Z.of_nat n)
    by (rewrite Nat2Z.inj_succ, Z.pow_succ_r by lia; reflexivity).
  rewrite Z.rem_mul_r by lia.
  pose proof (Z.mod_pos_bound v 256 ltac:(lia)) as Hm.
  set (hi := (v / 256) mod 256 ^ Z.of_nat n).
  assert (E1 : (v mod 256 + 256 * hi) mod 256 = v mod 256).
  { rewrite Z.mul_comm, Z_mod_plus_full. apply Z.mod_mod. lia. }
  assert (E2 : (v mod 256 + 256 * hi) / 256 = hi).
  { rewrite Z.mul_comm, Z_div_plus_full by lia.
    rewrite Z.div_small by lia. lia. }
  cbn [le_bytes]. unfold byte_of_Z. rewrite E1, E2.
  unfold hi. rewrite IH. reflexivity.
Qed.

(** Masking to 32 bits does not change the four bytes written. *)
Lemma be_bytes_mask32 (v : Z) :
  be_bytes 4 (Z.land v 0xffffffff) = be_bytes 4 v.
Proof.
  change 0xffffffff with (Z.ones 32). rewrite Z.land_ones by lia.
  unfold be_bytes. f_equal. exact (le_bytes_mod 4 v).
Qed.

Lemma byte_val_of_Z (v : Z) : byte_val (byte_of_Z v) = v mod 256.
Proof.
  unfold byte_of_Z, byte_val.
  pose proof (Z.mod_pos_bound v 256 ltac:(lia)) as Hm.
  destruct (Byte.of_N (Z.to_N (v mod 256))) as [b|] eqn:E; simpl.
  - apply Byte.to_of_N in E. rewrite E. lia.
  - apply Byte.of_N_None_iff in E. lia.
Qed.

Lemma le_int_le_bytes (n : nat) (v : Z) :
  le_int (le_bytes n v) = v mod 256 ^ Z.of_nat n.
Proof.
  revert v. induction n as [|n IH]; intros v.
  - simpl. rewrite Z.mod_1_r. reflexivity.
  - replace (256 ^ Z.of_nat (S n)) with (256 * 256 ^ Z.of_nat n)
      by (rewrite Nat2Z.inj_succ, Z.pow_succ_r by lia; reflexivity).
    assert (Hp : 0 < 256 ^ Z.of_nat n) by (apply Z.pow_pos_nonneg; lia).
    rewrite Z.rem_mul_r by lia.
    cbn [le_bytes le_int]. rewrite byte_val_of_Z, IH. reflexivity.
Qed.

Lemma be_int_reverse (bs : list byte) : be_int (reverse bs) = le_int bs.
Proof.
  unfold be_int. induction bs as [|b bs IH]; [reflexivity|].
  rewrite reverse_cons, fold_left_app. cbn [fold_left le_int].
  rewrite IH. lia.
Qed.

(** [be_bytes] is the big-endian encoding: reading it back most significant
    byte first gives the value. *)
Lemma be_int_be_bytes (v : Z) :
  0 <= v < 2 ^ 32 -> be_int (be_bytes 4 v) = v.
Proof.
  intros Hv. unfold be_bytes.
  rewrite be_int_reverse, le_int_le_bytes.
  apply Z.mod_small. exact Hv.
Qed.

Lemma pack_be_cons (c : fmt_char) (fmt : list fmt_char) (v : Z) (args : list Z) :
  0 <= v < 256 ^ Z.of_nat (fmt_size c) ->
  pack_be (c :: fmt) (v :: args)
  = (rest <- pack_be fmt args ;; Ok (be_bytes (fmt_size c) v ++ rest)).
Proof.
  intros Hv. cbn [pack_be].
  destruct (Z.leb_spec 0 v); [|lia].
  destruct (Z.ltb_spec v (256 ^ Z.of_nat (fmt_size c))); [|lia].
  reflexivity.
Qed.

(** The side condition of [pack_be_cons] for a field of known size. *)
Ltac fits_field :=
  cbn [fmt_size];
  change (256 ^ Z.of_nat 4) with (2 ^ 32);
  change (256 ^ Z.of_nat 1) with 256;
  lia.

Lemma pack_be_I (v : Z) :
  0 <= v < 2 ^ 32 -> pack_be [fI] [v] = Ok (be_bytes 4 v).
Proof.
  intros Hv. rewrite pack_be_cons by fits_field.
  cbn [pack_be bind fmt_size]. rewrite app_nil_r. reflexivity.
Qed.

Lemma pack_be_crc (v : Z) :
  pack_be [fI] [Z.land v 0xffffffff] = Ok (be_bytes 4 v).
Proof.
  rewrite pack_be_I.
  - rewrite be_bytes_mask32. reflexivity.
  - change 0xffffffff with (Z.ones 32). apply land_ones_range. lia.
Qed.

Lemma pack_be_ihdr (width height : Z) :
  0 <= width < 2 ^ 32 -> 0 <= height < 2 ^ 32 ->
  pack_be [fI; fI; fB; fB; fB; fB; fB] [width; height; 8; 6; 0; 0; 0]
  = Ok (be_bytes 4 width ++ be_bytes 4 height ++ [x08; x06; x00; x00; x00]).
Proof.
  intros Hw Hh. rewrite !pack_be_cons by fits_field.
  cbn [pack_be bind fmt_size]. reflexivity.
Qed.

Lemma png_rows_loop (width : Z) (rgba_data : list byte) (l : list Z)
    (raw : list byte) :
  for_each l (png_row width rgba_data) raw
  = Ok (raw ++ concat ((fun y => x00 :: slice rgba_data (y * width * 4)
                                          ((y + 1) * width * 4)) <$> l)).
Proof.
  revert raw. induction l as [|y l IH]; intros raw; simpl.
  - rewrite app_nil_r. reflexivity.
  - rewrite IH. f_equal. rewrite <- !app_assoc. reflexivity.
Qed.

(** What [write_png] writes, whatever the length of the buffer. *)
Lemma write_png_ok (zlib_compress : list byte -> Z -> list byte)
    (zlib_crc32 : list byte -> Z) (width height : Z) (rgba_data : list byte) :
  0 <= width < 2 ^ 32 -> 0 <= height < 2 ^ 32 ->
  len (zlib_compress (png_raw width height rgba_data) 9) < 2 ^ 32 ->
  write_png zlib_compress zlib_crc32 width height rgba_data
  = Ok (png_file zlib_compress zlib_crc32 width height
          (png_raw width height rgba_data)).
Proof.
  intros Hw Hh Hc. unfold write_png.
  rewrite (pack_be_ihdr width height Hw Hh). cbn [bind].
  rewrite (pack_be_I 13) by lia. cbn [bind].
  rewrite pack_be_crc. cbn [bind].
  rewrite png_rows_loop. cbn [bind]. rewrite app_nil_l.
  fold (png_raw width height rgba_data).
  rewrite pack_be_I by (split; [apply len_nonneg|exact Hc]). cbn [bind].
  rewrite pack_be_crc. cbn [bind].
  rewrite (pack_be_I 0) by lia. cbn [bind].
  rewrite pack_be_crc. cbn [bind].
  unfold png_file, png_chunk. f_equal.
  replace (len (be_bytes 4 width ++ be_bytes 4 height ++ [x08; x06; x00; x00; x00]))
    with 13
    by (unfold len; rewrite !length_app, !be_bytes_length; reflexivity).
  rewrite app_nil_r.
  change (len (@nil byte)) with 0.
  rewrite <- !app_assoc. reflexivity.
Qed.

Lemma png_raw_full (width height : Z) (rgba_data : list byte) :
  0 <= width -> 0 <= height -> len rgba_data = width * height * 4 ->
  png_raw width height rgba_data = scanline_stream width height rgba_data.
Proof.
  intros Hw Hh Hl. unfold png_raw, scanline_stream. f_equal.
  apply Forall_fmap_ext_1, Forall_forall.
  intros y Hy%elem_of_range. f_equal.
  rewrite slice_take_drop by nia.
  f_equal; [f_equal; lia|f_equal; f_equal; lia].
Qed.

Lemma scanline_rows_length (width : Z) (rgba_data : list byte) (l : list Z) :
  0 <= width ->
  Forall (fun y => 0 <= y /\ (y + 1) * (width * 4) <= len rgba_data) l ->
  len (concat ((fun y => x00 :: take (Z.to_nat (width * 4))
                                  (drop (Z.to_nat (y * (width * 4))) rgba_data))
                 <$> l))
  = len l * (1 + width * 4).
Proof.
  intros Hw. unfold len.
  induction 1 as [|y l [Hy Hr] _ IH]; [reflexivity|].
  rewrite fmap_cons. cbn [concat]. rewrite length_app. cbn [length].
  rewrite length_take, length_drop. unfold len in Hr. nia.
Qed.

Lemma scanline_stream_length (width height : Z) (rgba_data : list byte) :
  0 <= width -> 0 <= height -> len rgba_data = width * height * 4 ->
  len (scanline_stream width height rgba_data) = height * (1 + width * 4).
Proof.
  intros Hw Hh Hl. unfold scanline_stream.
  rewrite scanline_rows_length.
  - unfold len, range. rewrite length_seqZ. lia.
  - exact Hw.
  - apply Forall_forall. intros y Hy%elem_of_range. nia.
Qed.

(** C9. For positive [width] and [height] (within the 4-byte fields of the
    header) and an RGBA buffer of [width*height*4] bytes, the stream
    [write_png] writes is: the 8-byte signature; IHDR with big-endian width
    and height, bit depth 8, colour type 6, no interlace; one IDAT holding
    the level-9 zlib compression of the scanline stream (filter byte 0 then
    [width*4] bytes for each row, top to bottom, [height*(1+width*4)] bytes
    in all); an empty IEND. Each chunk is length, tag, data, CRC-32 of tag
    and data. *)
Theorem write_png_stream (zlib_compress : list byte -> Z -> list byte)
    (zlib_crc32 : list byte -> Z) (width height : Z) (rgba_data : list byte) :
  0 < width < 2 ^ 32 -> 0 < height < 2 ^ 32 ->
  len rgba_data = width * height * 4 ->
  len (zlib_compress (scanline_stream width height rgba_data) 9) < 2 ^ 32 ->
  write_png zlib_compress zlib_crc32 width height rgba_data
  = Ok (png_signature
        ++ png_chunk zlib_crc32 tag_IHDR
             (be_bytes 4 width ++ be_bytes 4 height
              ++ [x08; x06; x00; x00; x00])
        ++ png_chunk zlib_crc32 tag_IDAT
             (zlib_compress (scanline_stream width height rgba_data) 9)
        ++ png_chunk zlib_crc32 tag_IEND []) /\
  len (scanline_stream width height rgba_data) = height * (1 + width * 4) /\
  png_signature = [x89; x50; x4e; x47; x0d; x0a; x1a; x0a] /\
  be_int (be_bytes 4 width) = width /\
  be_int (be_bytes 4 height) = height /\
  forall tag data,
    png_chunk zlib_crc32 tag data
    = be_bytes 4 (len data) ++ tag ++ data
      ++ be_bytes 4 (zlib_crc32 (tag ++ data)).
Proof.
  intros Hw Hh Hl Hc.
  rewrite <- (png_raw_full width height rgba_data) in Hc by lia.
  split; [|split; [|split; [|split; [|split]]]].
  - rewrite write_png_ok by (assumption || lia).
    rewrite png_raw_full by lia. reflexivity.
  - apply scanline_stream_length; lia.
  - reflexivity.
  - apply be_int_be_bytes. lia.
  - apply be_int_be_bytes. lia.
  - reflexivity.
Qed.

(** A 1x2 image, with a stand-in for zlib that stores its input and a
    constant checksum. *)
Lemma write_png_stream_witness :
  write_png (fun raw _ => raw) (fun _ => 0) 1 2
    [x01; x02; x03; x04; x05; x06; x07; x08]
  = Ok (png_signature
        ++ png_chunk (fun _ => 0) tag_IHDR
             (be_bytes 4 1 ++ be_bytes 4 2 ++ [x08; x06; x00; x00; x00])
        ++ png_chunk (fun _ => 0) tag_IDAT
             [x00; x01; x02; x03; x04; x00; x05; x06; x07; x08]
        ++ png_chunk (fun _ => 0) tag_IEND []).
Proof.
  refine (proj1 (write_png_stream (fun raw _ => raw) (fun _ => 0) 1 2
                   [x01; x02; x03; x04; x05; x06; x07; x08] _ _ _ _)).
  - lia.
  - lia.
  - reflexivity.
  - vm_compute. reflexivity.
Defined.

(** C4, as the code has it. [write_png] never compares the buffer length
    with [width*height*4]: for a buffer of any length it writes a stream
    (dimensions and compressed length fitting their 4-byte fields), each
    row being the slice [rgba_data[y*width*4:(y+1)*width*4]], which is
    short or empty where the buffer ends early. *)
Theorem write_png_any_buffer (zlib_compress : list byte -> Z -> list byte)
    (zlib_crc32 : list byte -> Z) (width height : Z) (rgba_data : list byte) :
  0 <= width < 2 ^ 32 -> 0 <= height < 2 ^ 32 ->
  len (zlib_compress (png_raw width height rgba_data) 9) < 2 ^ 32 ->
  exists png,
    write_png zlib_compress zlib_crc32 width height rgba_data = Ok png /\
    png = png_file zlib_compress zlib_crc32 width height
            (png_raw width height rgba_data).
Proof.
  intros Hw Hh Hc. eexists. split; [|reflexivity].
  apply write_png_ok; assumption.
Qed.

(** A 1x2 image with five bytes where eight are due: the second row has one
    byte. *)
Lemma write_png_any_buffer_witness :
  exists png,
    write_png (fun raw _ => raw) (fun _ => 0) 1 2 [x01; x02; x03; x04; x05] = Ok png /\
    png = png_file (fun raw _ => raw) (fun _ => 0) 1 2
            [x00; x01; x02; x03; x04; x00; x05].
Proof.
  apply (write_png_any_buffer (fun raw _ => raw) (fun _ => 0) 1 2
           [x01; x02; x03; x04; x05]).
  - lia.
  - lia.
  - vm_compute. reflexivity.
Defined.

(** C4, counterexample: a 1x1 image with an empty buffer (0 bytes, not 4)
    and a 2x1 image with a buffer one byte too long are both written. *)
Lemma write_png_accepts_wrong_length :
  len (@nil byte) <> 1 * 1 * 4 /\
  png_raw 1 1 [] = [x00] /\
  png_written 1 1 [] /\
  len [x01; x02; x03; x04; x05; x06; x07; x08; x09] <> 2 * 1 * 4 /\
  png_written 2 1 [x01; x02; x03; x04; x05; x06; x07; x08; x09].
Proof.
  split; [vm_compute; discriminate|].
  split; [reflexivity|].
  split; [|split; [vm_compute; discriminate|]].
  - intros zc crc Hc. eexists. apply write_png_ok; [lia|lia|exact Hc].
  - intros zc crc Hc. eexists. apply write_png_ok; [lia|lia|exact Hc].
Qed.

(** * More about the decoders *)




Lemma byte_val_inj (a b : byte) : byte_val a = byte_val b -> a = b.
Proof.
  unfold byte_val. intros H. apply N2Z.inj in H.
  pose proof (Byte.of_to_N a) as Ha. rewrite H, Byte.of_to_N in Ha.
  congruence.
Qed.

(** A buffer of [width*height*4] bytes is determined by its pixels. *)
Lemma buffer_ext (width height : Z) (a b : list byte) :
  0 <= width -> 0 <= height ->
  len a = width * height * 4 -> len b = width * height * 4 ->
  (forall x y, 0 <= x < width -> 0 <= y < height ->
     pixel_at a width x y = pixel_at b width x y) ->
  a = b.
Proof.
  intros Hw Hh Ha Hb Hp. apply list_eq. intros i.
  destruct (decide (Z.of_nat i < width * height * 4)) as [Hi|Hi].
  2:{ rewrite !(proj2 (lookup_ge_None _ _)); auto; unfold len in *; lia. }
  set (p := Z.of_nat i / 4).
  set (k := Z.of_nat i mod 4).
  assert (Hwpos : 0 < width) by nia.
  assert (Hp0 : 0 <= p < width * height) by (unfold p; divlia).
  assert (Hk : 0 <= k < 4) by (unfold k; divlia).
  assert (Hx : 0 <= p mod width < width) by (apply Z.mod_pos_bound; lia).
  assert (Hy : 0 <= p / width < height).
  { split; [apply Z.div_pos; lia|apply Z.div_lt_upper_bound; lia]. }
  specialize (Hp (p mod width) (p / width) Hx Hy).
  unfold pixel_at, pixel_offset, read4 in Hp.
  assert (Ho : (p / width * width + p mod width) * 4 = p * 4).
  { pose proof (Z.div_mod p width ltac:(lia)). lia. }
  rewrite Ho in Hp.
  assert (Hl : forall c : list byte, len c = width * height * 4 ->
            (byte_val <$> slice c (p * 4) (p * 4 + 4)) !! Z.to_nat k
            = byte_val <$> c !! i).
  { intros c Hc. rewrite list_lookup_fmap. f_equal.
    rewrite slice_lookup by lia. f_equal. unfold p, k. divlia. }
  pose proof (Hl a Ha) as Hla. pose proof (Hl b Hb) as Hlb.
  rewrite Hp, Hlb in Hla.
  destruct (a !! i) as [va|] eqn:Ea, (b !! i) as [vb|] eqn:Eb; simpl in Hla;
    try discriminate; [|reflexivity].
  f_equal. apply byte_val_inj. congruence.
Qed.






Lemma slice_app_l {A : Type} (l k : list A) (i j : Z) :
  0 <= i <= j -> j <= len l -> slice (l ++ k) i j = slice l i j.
Proof.
  intros Hij Hj.
  assert (Hl : len (l ++ k) = len l + len k)
    by (unfold len; rewrite length_app; lia).
  pose proof (len_nonneg k).
  apply list_eq. intros n.
  destruct (decide (n < Z.to_nat (j - i))%nat) as [Hn|Hn].
  - rewrite !slice_lookup by lia. apply lookup_app_l. unfold len in *. lia.
  - rewrite !(proj2 (lookup_ge_None _ _)); auto;
      rewrite slice_length by lia; lia.
Qed.

Lemma byte_at_app_l (l k : list byte) (i : Z) :
  0 <= i < len l -> byte_at (l ++ k) i = byte_at l i.
Proof.
  intros Hi. unfold byte_at. rewrite lookup_app_l; [reflexivity|].
  unfold len in Hi. lia.
Qed.

Lemma grid_block_in_range (width height x y stride : Z) :
  0 <= x < width -> 0 <= y < height -> 0 < stride ->
  0 <= (y / 4 * ((width + 3) / 4) + x / 4) * stride /\
  (y / 4 * ((width + 3) / 4) + x / 4) * stride + stride
  <= (width + 3) / 4 * ((height + 3) / 4) * stride.
Proof.
  intros Hx Hy Hs.
  assert (Hc : 0 <= x / 4 < (width + 3) / 4) by divlia.
  assert (Ha : 0 <= y / 4 < (height + 3) / 4) by divlia.
  generalize dependent (x / 4). generalize dependent (y / 4).
  generalize dependent ((width + 3) / 4). generalize dependent ((height + 3) / 4).
  intros H B a Ha c Hc.
  assert (0 <= a * B) by nia.
  assert (a * B + c + 1 <= B * H) by nia.
  split; nia.
Qed.

(** X4. Bytes after the last block of the grid are never read: when the
    payload holds all [ceil(width/4) * ceil(height/4)] blocks, appending
    anything to it leaves the decoded image unchanged. *)
Theorem trailing_payload_ignored (data extra : list byte) (width height : Z) :
  0 <= width -> 0 <= height ->
  ((width + 3) / 4 * ((height + 3) / 4) * 8 <= len data ->
   decompress_dxt1 (data ++ extra) width height
   = decompress_dxt1 data width height) /\
  ((width + 3) / 4 * ((height + 3) / 4) * 16 <= len data ->
   decompress_dxt5 (data ++ extra) width height
   = decompress_dxt5 data width height).
Proof.
  intros Hw Hh.
  assert (Hl : len (data ++ extra) = len data + len extra)
    by (unfold len; rewrite length_app; lia).
  pose proof (len_nonneg extra) as He.
  split; intros Hd.
  - destruct (dxt1_pixels data width height Hw Hh) as (o & E & Hlo & Hp).
    destruct (dxt1_pixels (data ++ extra) width height Hw Hh)
      as (o' & E' & Hlo' & Hp').
    rewrite E, E'. f_equal.
    apply (buffer_ext width height); try lia.
    intros x y Hx Hy. rewrite Hp, Hp' by lia.
    destruct (grid_block_in_range width height x y 8 Hx Hy ltac:(lia)) as [G0 G1].
    unfold dxt1_expected.
    set (o8 := (y / 4 * ((width + 3) / 4) + x / 4) * 8) in *.
    destruct (Z.ltb_spec (len (data ++ extra)) (o8 + 8)); [lia|].
    destruct (Z.ltb_spec (len data) (o8 + 8)); [lia|].
    unfold dxt1_decoded. rewrite !slice_app_l by lia. reflexivity.
  - destruct (dxt5_pixels data width height Hw Hh) as (o & E & Hlo & Hp).
    destruct (dxt5_pixels (data ++ extra) width height Hw Hh)
      as (o' & E' & Hlo' & Hp').
    rewrite E, E'. f_equal.
    apply (buffer_ext width height); try lia.
    intros x y Hx Hy. rewrite Hp, Hp' by lia.
    destruct (grid_block_in_range width height x y 16 Hx Hy ltac:(lia)) as [G0 G1].
    unfold dxt5_expected.
    set (o16 := (y / 4 * ((width + 3) / 4) + x / 4) * 16) in *.
    destruct (Z.ltb_spec (len (data ++ extra)) (o16 + 16)); [lia|].
    destruct (Z.ltb_spec (len data) (o16 + 16)); [lia|].
    unfold dxt5_decoded.
    rewrite !slice_app_l, !byte_at_app_l by lia. reflexivity.
Qed.

(** One block for a 4x3 image, followed by three stray bytes. *)
Lemma trailing_payload_ignored_witness :
  decompress_dxt1 (sample_bc1 ++ [x01; x02; x03]) 4 3
  = decompress_dxt1 sample_bc1 4 3.
Proof.
  destruct (trailing_payload_ignored sample_bc1 [x01; x02; x03] 4 3) as [H _];
    [lia|lia|].
  apply H. vm_compute. discriminate.
Defined.

(** * More about the palettes *)



Lemma dxt1_colors_opaque (c0 c1 : Z) :
  c1 < c0 ->
  dxt1_colors c0 c1
  = (fun c : rgb => (c.1.1, c.1.2, c.2, 255)) <$> dxt5_colors c0 c1.
Proof.
  intros Hc. unfold dxt1_colors, dxt5_colors.
  destruct (rgb565 c0) as [[r0 g0] b0], (rgb565 c1) as [[r1 g1] b1].
  destruct (Z.ltb_spec c1 c0); [reflexivity|lia].
Qed.

(** X6. The two decoders agree on colour in four-colour mode: for a 16-byte
    BC3 block whose colour endpoints satisfy [c0 > c1], the red, green and
    blue bytes of every pixel equal those [decompress_dxt1] gives for the
    colour sub-block [block[8:16]] alone. *)
Theorem bc3_colour_matches_bc1 (block : list byte) :
  length block = 16%nat ->
  bc1_c1 (slice block 8 16) < bc1_c0 (slice block 8 16) ->
  exists out5 out1,
    decompress_dxt5 block 4 4 = Ok out5 /\
    decompress_dxt1 (slice block 8 16) 4 4 = Ok out1 /\
    forall x y, 0 <= x < 4 -> 0 <= y < 4 ->
      take 3 (pixel_at out5 4 x y) = take 3 (pixel_at out1 4 x y).
Proof.
  intros Hb Hc.
  assert (Hl : len block = 16) by (unfold len; lia).
  assert (Hs : length (slice block 8 16) = 8%nat)
    by (rewrite slice_length by lia; reflexivity).
  destruct (dxt5_single_block block Hb) as (o5 & E5 & _ & H5).
  destruct (dxt1_single_block (slice block 8 16) Hs) as (o1 & E1 & _ & H1).
  exists o5, o1. split; [exact E5|]. split; [exact E1|].
  intros x y Hx Hy. rewrite (H5 x y Hx Hy), (H1 x y Hx Hy).
  unfold bc3_block_pixel, bc1_block_pixel, dxt5_decoded, dxt1_decoded.
  unfold bc1_c0, bc1_c1 in Hc.
  change 16 with (8 + 8) in Hc |- * at 1.
  rewrite !(slice_slice block 8 8) in * by lia.
  rewrite !Z.add_0_l. simpl (8 + _) in *.
  rewrite dxt1_colors_opaque by exact Hc.
  rewrite list_lookup_fmap.
  set (ci := Z.to_nat (Z.land _ 3)).
  destruct (dxt5_colors _ _ !! ci) as [[[r g] b]|] eqn:Ec; simpl.
  - pose proof (index3_range
                  (Z.shiftr (Z.shiftr (le_int (slice block 0 8)) 16)
                     ((y * 4 + x) * 3))) as Hai.
    destruct (dxt5_alphas _ _ !! _) as [a|] eqn:Ea; [reflexivity|].
    apply lookup_ge_None in Ea. rewrite dxt5_alphas_length in Ea. lia.
  - reflexivity.
Qed.

(** The sample block in four-colour mode. *)
Lemma bc3_colour_matches_bc1_witness :
  exists out5 out1,
    decompress_dxt5 sample_bc3_four 4 4 = Ok out5 /\
    decompress_dxt1 (slice sample_bc3_four 8 16) 4 4 = Ok out1 /\
    forall x y, 0 <= x < 4 -> 0 <= y < 4 ->
      take 3 (pixel_at out5 4 x y) = take 3 (pixel_at out1 4 x y).
Proof.
  apply (bc3_colour_matches_bc1 sample_bc3_four).
  - reflexivity.
  - vm_compute. reflexivity.
Defined.

(** X7. The interpolated alphas never leave the interval of the two
    endpoints and are ordered along the ramp: with [a0 > a1] entries 2..7
    fall from [a0] to [a1]; with [a0 <= a1] entries 2..5 rise from [a0] to
    [a1] (entries 6 and 7 are the constants 0 and 255). *)
Theorem alpha_ramp_is_monotone (a0 a1 : Z) (i j : nat) (vi vj : Z) :
  (2 <= i <= j)%nat ->
  dxt5_alphas a0 a1 !! i = Some vi ->
  dxt5_alphas a0 a1 !! j = Some vj ->
  (a1 < a0 -> a1 <= vj <= vi /\ vi <= a0) /\
  (a0 <= a1 -> (j <= 5)%nat -> a0 <= vi <= vj /\ vj <= a1).
Proof.
  intros Hij Hi Hj.
  assert (Hi8 : (i < 8)%nat).
  { apply lookup_lt_Some in Hi. rewrite dxt5_alphas_length in Hi. exact Hi. }
  assert (Hj8 : (j < 8)%nat).
  { apply lookup_lt_Some in Hj. rewrite dxt5_alphas_length in Hj. exact Hj. }
  rewrite dxt5_alphas_unfold in Hi, Hj.
  assert (Ci : (i = 2 \/ i = 3 \/ i = 4 \/ i = 5 \/ i = 6 \/ i = 7)%nat) by lia.
  assert (Cj : (j = 2 \/ j = 3 \/ j = 4 \/ j = 5 \/ j = 6 \/ j = 7)%nat) by lia.
  destruct (Z.ltb_spec a1 a0) as [Hlt|Hge]; (split; [intros ?|intros ? Hj5]);
    try lia;
    destruct Ci as [-> | [-> | [-> | [-> | [-> | ->]]]]];
    destruct Cj as [-> | [-> | [-> | [-> | [-> | ->]]]]]; try lia;
    simpl in Hi, Hj; injection Hi as <-; injection Hj as <-; divlia.
Qed.

(** Endpoints 200 and 10: entries 4 and 7 of the ramp. *)
Lemma alpha_ramp_is_monotone_witness :
  10 <= 37 <= 118 /\ 118 <= 200.
Proof.
  refine (proj1 (alpha_ramp_is_monotone 200 10 4 7 118 37 _ _ _) _).
  - lia.
  - reflexivity.
  - reflexivity.
  - lia.
Defined.

(** X8. The expansion of a packed colour to 8-bit channels loses nothing:
    two 16-bit RGB565 values with the same expanded channels are equal. *)
Theorem rgb565_is_injective (c c' : Z) :
  0 <= c < 65536 -> 0 <= c' < 65536 -> rgb565 c = rgb565 c' -> c = c'.
Proof.
  intros Hc Hc' E. rewrite !rgb565_fields in E.
  injection E as Er Eg Eb.
  unfold red5, green6, blue5 in *.
  change (2 ^ 11) with 2048 in *. change (2 ^ 5) with 32 in *.
  change (2 ^ 6) with 64 in *.
  pose proof (Z.mod_pos_bound (c / 2048) 32 ltac:(lia)).
  pose proof (Z.mod_pos_bound (c' / 2048) 32 ltac:(lia)).
  pose proof (Z.mod_pos_bound (c / 32) 64 ltac:(lia)).
  pose proof (Z.mod_pos_bound (c' / 32) 64 ltac:(lia)).
  pose proof (Z.mod_pos_bound c 32 ltac:(lia)).
  pose proof (Z.mod_pos_bound c' 32 ltac:(lia)).
  rewrite !Z.quot_div_nonneg in Er, Eg, Eb by lia.
  assert (Hr : (c / 2048) mod 32 = (c' / 2048) mod 32) by divlia.
  assert (Hg : (c / 32) mod 64 = (c' / 32) mod 64) by divlia.
  assert (Hb : c mod 32 = c' mod 32) by divlia.
  clear Er Eg Eb. divlia.
Qed.

Lemma rgb565_is_injective_witness : 0x07E0 = 0x07E0.
Proof.
  apply (rgb565_is_injective 0x07E0 0x07E0); [lia|lia|reflexivity].
Defined.

(** * More about write_png *)

Lemma pack_be_cons_fail (c : fmt_char) (fmt : list fmt_char) (v : Z)
    (args : list Z) :
  ~ (0 <= v < 256 ^ Z.of_nat (fmt_size c)) ->
  pack_be (c :: fmt) (v :: args) = Raise StructError.
Proof.
  intros Hv. cbn [pack_be].
  destruct (Z.leb_spec 0 v); destruct (Z.ltb_spec v (256 ^ Z.of_nat (fmt_size c)));
    try reflexivity; lia.
Qed.

(** Outside the 4-byte fields [write_png] stops with struct.error. *)
Lemma write_png_struct_error (zlib_compress : list byte -> Z -> list byte)
    (zlib_crc32 : list byte -> Z) (width height : Z) (rgba_data : list byte) :
  ~ (0 <= width < 2 ^ 32) \/ ~ (0 <= height < 2 ^ 32)
  \/ 2 ^ 32 <= len (zlib_compress (png_raw width height rgba_data) 9) ->
  write_png zlib_compress zlib_crc32 width height rgba_data = Raise StructError.
Proof.
  intros Hbad. unfold write_png.
  destruct (decide (0 <= width < 2 ^ 32)) as [Hw|Hw].
  2:{ rewrite pack_be_cons_fail by (cbn [fmt_size]; exact Hw). reflexivity. }
  destruct (decide (0 <= height < 2 ^ 32)) as [Hh|Hh].
  2:{ rewrite pack_be_cons by (cbn [fmt_size]; exact Hw).
      rewrite pack_be_cons_fail by (cbn [fmt_size]; exact Hh). reflexivity. }
  rewrite (pack_be_ihdr width height Hw Hh). cbn [bind].
  rewrite (pack_be_I 13) by lia. cbn [bind].
  rewrite pack_be_crc. cbn [bind].
  rewrite png_rows_loop. cbn [bind]. rewrite app_nil_l.
  fold (png_raw width height rgba_data).
  rewrite pack_be_cons_fail; [reflexivity|].
  cbn [fmt_size]. change (256 ^ Z.of_nat 4) with (2 ^ 32). lia.
Qed.

(** X9. [write_png] raises exactly when a value does not fit its 4-byte
    field: the width, the height, or the length of the compressed data is
    outside [0, 2^32). The exception is then struct.error; the content and
    the length of the pixel buffer never cause one. *)
Theorem write_png_raises_iff (zlib_compress : list byte -> Z -> list byte)
    (zlib_crc32 : list byte -> Z) (width height : Z) (rgba_data : list byte) :
  ((exists e, write_png zlib_compress zlib_crc32 width height rgba_data = Raise e)
   <-> ~ (0 <= width < 2 ^ 32) \/ ~ (0 <= height < 2 ^ 32)
       \/ 2 ^ 32 <= len (zlib_compress (png_raw width height rgba_data) 9)) /\
  (forall e, write_png zlib_compress zlib_crc32 width height rgba_data = Raise e ->
             e = StructError).
Proof.
  destruct (decide (0 <= width < 2 ^ 32 /\ 0 <= height < 2 ^ 32 /\
                    len (zlib_compress (png_raw width height rgba_data) 9) < 2 ^ 32))
    as [(Hw & Hh & Hc)|Hbad].
  - rewrite write_png_ok by assumption. split.
    + split; [intros [e [=]]|]. intros [?|[?|?]]; lia.
    + intros e [=].
  - assert (Hb : ~ (0 <= width < 2 ^ 32) \/ ~ (0 <= height < 2 ^ 32)
                 \/ 2 ^ 32 <= len (zlib_compress (png_raw width height rgba_data) 9))
      by lia.
    rewrite (write_png_struct_error _ _ _ _ _ Hb).
    split; [split; eauto|]. intros e [= <-]. reflexivity.
Qed.

(** X10. The file [write_png] writes is 57 bytes longer than the compressed
    data: 8 of signature, 25 of IHDR, 12 of IDAT framing, 12 of IEND. *)
Theorem write_png_length (zlib_compress : list byte -> Z -> list byte)
    (zlib_crc32 : list byte -> Z) (width height : Z) (rgba_data png : list byte) :
  write_png zlib_compress zlib_crc32 width height rgba_data = Ok png ->
  len png = 57 + len (zlib_compress (png_raw width height rgba_data) 9).
Proof.
  intros E.
  destruct (decide (0 <= width < 2 ^ 32 /\ 0 <= height < 2 ^ 32 /\
                    len (zlib_compress (png_raw width height rgba_data) 9) < 2 ^ 32))
    as [(Hw & Hh & Hc)|Hbad].
  - rewrite write_png_ok in E by assumption. injection E as <-.
    unfold png_file, png_chunk, len.
    rewrite !length_app, !be_bytes_length. simpl. lia.
  - rewrite write_png_struct_error in E by lia. discriminate.
Qed.

(** A 1x1 image whose compressed data is its five raw bytes. *)
Lemma write_png_length_witness :
  exists png,
    write_png (fun raw _ => raw) (fun _ => 0) 1 1 [x01; x02; x03; x04] = Ok png /\
    len png = 57 + 5.
Proof.
  eexists. split; [reflexivity|].
  apply (write_png_length (fun raw _ => raw) (fun _ => 0) 1 1 [x01; x02; x03; x04]).
  reflexivity.
Defined.

Lemma concat_rows_take_drop {A : Type} (rows : list (list A)) (m k : nat)
    (row : list A) :
  Forall (fun r => length r = m) rows -> rows !! k = Some row ->
  take m (drop (k * m) (concat rows)) = row.
Proof.
  intros Hall. revert k. induction Hall as [|r rows Hr _ IH]; intros k Hk.
  - discriminate.
  - destruct k as [|k]; simpl in Hk |- *.
    + injection Hk as <-. apply take_app_length'. symmetry. exact Hr.
    + rewrite drop_app_add' by (symmetry; exact Hr). apply IH. exact Hk.
Qed.

Lemma chunks_concat {A : Type} (buf : list A) (n : Z) (h : nat) :
  0 <= n -> Z.of_nat h * n <= len buf ->
  concat ((fun y => slice buf (y * n) ((y + 1) * n)) <$> seqZ 0 (Z.of_nat h))
  = take (Z.to_nat (Z.of_nat h * n)) buf.
Proof.
  intros Hn. induction h as [|h IH]; intros Hl; [reflexivity|].
  rewrite seqZ_S, fmap_app, concat_app, IH by lia.
  simpl. rewrite app_nil_r, Z.add_0_l.
  rewrite slice_take_drop by lia.
  rewrite take_take_drop. f_equal. lia.
Qed.

(** X11. The scanline stream carries the pixel buffer unchanged: for a
    buffer of [width*height*4] bytes every row of the stream starts with the
    filter byte 0, and dropping that byte from each row gives the buffer
    back. *)
Theorem scanlines_round_trip (width height : Z) (rgba_data : list byte) :
  0 <= width -> 0 <= height -> len rgba_data = width * height * 4 ->
  strip_filter_bytes width height (png_raw width height rgba_data) = rgba_data /\
  forall y, 0 <= y < height ->
    png_raw width height rgba_data !! Z.to_nat (y * (1 + width * 4)) = Some x00.
Proof.
  intros Hw Hh Hl.
  set (m := 1 + width * 4).
  set (row := fun y => x00 :: slice rgba_data (y * width * 4) ((y + 1) * width * 4)).
  assert (Hrows : Forall (fun r => length r = Z.to_nat m) (row <$> range height)).
  { apply Forall_fmap, Forall_forall. intros y Hy%elem_of_range.
    unfold row. simpl. rewrite slice_length by nia. unfold m. lia. }
  assert (Hrow : forall y, 0 <= y < height ->
            take (Z.to_nat m) (drop (Z.to_nat (y * m)) (png_raw width height rgba_data))
            = row y).
  { intros y Hy. unfold png_raw. fold row.
    replace (Z.to_nat (y * m)) with (Z.to_nat y * Z.to_nat m)%nat by (unfold m; nia).
    apply concat_rows_take_drop; [exact Hrows|].
    rewrite list_lookup_fmap. unfold range.
    rewrite lookup_seqZ_lt by lia. simpl. do 2 f_equal. lia. }
  assert (Hlen : len (png_raw width height rgba_data) = height * m).
  { rewrite png_raw_full by assumption. apply scanline_stream_length; assumption. }
  split.
  - unfold strip_filter_bytes. fold m.
    transitivity (concat ((fun y => slice rgba_data (y * (width * 4))
                                      ((y + 1) * (width * 4)))
                            <$> seqZ 0 (Z.of_nat (Z.to_nat height)))).
    + rewrite Z2Nat.id by lia. f_equal.
      apply Forall_fmap_ext_1, Forall_forall. intros y Hy%elem_of_range.
      rewrite slice_take_drop by (unfold m in *; nia).
      replace (Z.to_nat (y * m + 1)) with (Z.to_nat (y * m) + 1)%nat
        by (unfold m; nia).
      replace (Z.to_nat ((y + 1) * m - (y * m + 1))) with (Z.to_nat m - 1)%nat
        by (unfold m; nia).
      rewrite <- drop_drop, take_drop_commute.
      replace (1 + (Z.to_nat m - 1))%nat with (Z.to_nat m) by (unfold m; lia).
      rewrite (Hrow y Hy). unfold row. simpl. rewrite drop_0.
      f_equal; lia.
    + rewrite chunks_concat by (rewrite ?Z2Nat.id by lia; lia).
      apply take_ge. unfold len in Hl. nia.
  - intros y Hy. pose proof (Hrow y Hy) as Hr.
    apply (f_equal (fun l => l !! 0%nat)) in Hr.
    rewrite lookup_take_lt in Hr by (unfold m; lia).
    rewrite lookup_drop, Nat.add_0_r in Hr. exact Hr.
Qed.

(** A 1x2 image. *)
Lemma scanlines_round_trip_witness :
  strip_filter_bytes 1 2 (png_raw 1 2 [x01; x02; x03; x04; x05; x06; x07; x08])
  = [x01; x02; x03; x04; x05; x06; x07; x08].
Proof.
  refine (proj1 (scanlines_round_trip 1 2
                   [x01; x02; x03; x04; x05; x06; x07; x08] _ _ _)).
  - lia.
  - lia.
  - reflexivity.
Defined.

(** * convert_bimage *)

Lemma slice_length_clamped {A : Type} (l : list A) (i j : Z) :
  0 <= i -> 0 <= j ->
  length (slice l i j) = Z.to_nat (Z.min j (len l) - Z.min i (len l)).
Proof.
  intros Hi Hj. unfold slice, norm_index.
  destruct (Z.ltb_spec i 0); [lia|]. destruct (Z.ltb_spec j 0); [lia|].
  rewrite length_take, length_drop. unfold len. lia.
Qed.

Lemma file_read_rest_drop (content : list byte) (pos : Z) :
  0 <= pos -> file_read_rest content pos = drop (Z.to_nat pos) content.
Proof.
  intros Hp. unfold file_read_rest, slice, norm_index.
  pose proof (len_nonneg content) as Hl.
  destruct (Z.ltb_spec pos 0); [lia|].
  destruct (Z.ltb_spec (len content) 0); [lia|].
  rewrite Z.min_id. unfold len in *.
  destruct (Z.le_gt_cases pos (Z.of_nat (length content))).
  - rewrite Z.min_l by lia. apply take_ge. rewrite length_drop. lia.
  - rewrite Z.min_r by lia. rewrite !drop_ge by lia. apply take_nil.
Qed.

Lemma le_int_range (bs : list byte) : 0 <= le_int bs < 256 ^ len bs.
Proof.
  unfold len. induction bs as [|b bs IH].
  - simpl. lia.
  - cbn [le_int length]. rewrite Nat2Z.inj_succ, Z.pow_succ_r by lia.
    pose proof (byte_val_range b). lia.
Qed.

Lemma be_int_range (bs : list byte) : 0 <= be_int bs < 256 ^ len bs.
Proof.
  rewrite <- (reverse_involutive bs) at 1 2. rewrite be_int_reverse.
  replace (len bs) with (len (reverse bs))
    by (unfold len; rewrite length_reverse; reflexivity).
  apply le_int_range.
Qed.

Lemma unpack_be_slice (n : nat) (data : list byte) (i j : Z) :
  0 <= i -> j = i + Z.of_nat n -> j <= len data ->
  unpack_be n (slice data i j) = Ok (be_int (slice data i j)).
Proof.
  intros Hi -> Hj. unfold unpack_be.
  rewrite slice_length by lia.
  destruct (decide (Z.to_nat (i + Z.of_nat n - i) = n)); [reflexivity|lia].
Qed.

Lemma unpack_be_short (n : nat) (data : list byte) (i j : Z) :
  (0 < n)%nat -> 0 <= i -> j = i + Z.of_nat n -> len data < j ->
  unpack_be n (slice data i j) = Raise StructError.
Proof.
  intros Hn Hi -> Hj. unfold unpack_be.
  rewrite slice_length_clamped by lia.
  destruct (decide (_ = n)); [unfold len in *; lia|reflexivity].
Qed.

(** The header of a file of at least 36 bytes, as [convert_bimage] reads
    it. *)
Lemma convert_bimage_header (zlib_compress : list byte -> Z -> list byte)
    (zlib_crc32 : list byte -> Z) (content : list byte) :
  36 <= len content ->
  convert_bimage_body zlib_compress zlib_crc32 content
  = match decode_by_format (bimage_format content) (bimage_payload content)
            (bimage_width content) (bimage_height content) with
    | Some decoded =>
        rgba <- decoded ;;
        png <- write_png zlib_compress zlib_crc32
                 (bimage_width content) (bimage_height content) rgba ;;
        Ok (Some png)
    | None => Ok None
    end.
Proof.
  intros Hl. unfold convert_bimage_body, file_read.
  rewrite !(unpack_be_slice 2 content) by lia. cbn [bind].
  assert (Hs : length (slice content 35 (35 + 1)) = 1%nat)
    by (rewrite slice_length by lia; reflexivity).
  destruct (index_ok (slice content 35 (35 + 1)) 0) as (b & Eb & Hb).
  { unfold len. rewrite Hs. lia. }
  rewrite Eb. cbn [bind].
  rewrite slice_lookup in Hb by lia.
  assert (Hf : byte_val b = bimage_format content).
  { unfold bimage_format, byte_at.
    replace (Z.to_nat 35) with (Z.to_nat 35 + Z.to_nat 0)%nat by lia.
    rewrite Hb. reflexivity. }
  rewrite Hf, file_read_rest_drop by lia. reflexivity.
Qed.

(** X12. [convert_bimage] returns False and writes nothing when the file
    is too short to hold the header (fewer than 36 bytes: an exception is
    caught) or when its format byte is neither 0x0A nor 0x0B. *)
Theorem convert_bimage_refuses (zlib_compress : list byte -> Z -> list byte)
    (zlib_crc32 : list byte -> Z) (content : list byte) :
  len content < 36 \/
  (bimage_format content <> 0x0A /\ bimage_format content <> 0x0B) ->
  convert_bimage zlib_compress zlib_crc32 content = None.
Proof.
  intros Hbad. unfold convert_bimage.
  destruct (Z.lt_ge_cases (len content) 36) as [Hshort|Hlong].
  - clear Hbad. unfold convert_bimage_body, file_read.
    destruct (Z.lt_ge_cases (len content) 16).
    { rewrite (unpack_be_short 2 content 14) by lia. reflexivity. }
    rewrite (unpack_be_slice 2 content 14) by lia. cbn [bind].
    destruct (Z.lt_ge_cases (len content) 20).
    { rewrite (unpack_be_short 2 content 18) by lia. reflexivity. }
    rewrite (unpack_be_slice 2 content 18) by lia. cbn [bind].
    assert (Hs : slice content 35 (35 + 1) = []).
    { apply length_zero_iff_nil. rewrite slice_length_clamped by lia. lia. }
    rewrite Hs. reflexivity.
  - destruct Hbad as [?|[H10 H11]]; [lia|].
    rewrite convert_bimage_header by lia. unfold decode_by_format.
    destruct (Z.eqb_spec (bimage_format content) 11); [contradiction|].
    destruct (Z.eqb_spec (bimage_format content) 10); [contradiction|].
    reflexivity.
Qed.

(** The sample file cut before its format byte. *)
Lemma convert_bimage_refuses_witness :
  convert_bimage (fun raw _ => raw) (fun _ => 0) (take 35 sample_bimage) = None.
Proof.
  apply (convert_bimage_refuses (fun raw _ => raw) (fun _ => 0)
           (take 35 sample_bimage)).
  left. vm_compute. reflexivity.
Defined.

Lemma convert_bimage_short (zlib_compress : list byte -> Z -> list byte)
    (zlib_crc32 : list byte -> Z) (content : list byte) :
  len content < 36 ->
  convert_bimage zlib_compress zlib_crc32 content = None.
Proof.
  intros Hshort. unfold convert_bimage, convert_bimage_body, file_read.
  destruct (Z.lt_ge_cases (len content) 16).
  { rewrite (unpack_be_short 2 content 14) by lia. reflexivity. }
  rewrite (unpack_be_slice 2 content 14) by lia. cbn [bind].
  destruct (Z.lt_ge_cases (len content) 20).
  { rewrite (unpack_be_short 2 content 18) by lia. reflexivity. }
  rewrite (unpack_be_slice 2 content 18) by lia. cbn [bind].
  assert (Hs : slice content 35 (35 + 1) = []).
  { apply length_zero_iff_nil. rewrite slice_length_clamped by lia. lia. }
  rewrite Hs. reflexivity.
Qed.

(** X13. Whenever [convert_bimage] returns True, the file had at least 36
    bytes and a format byte 0x0A or 0x0B, and what was written is the PNG
    of the decoded image: width and height are the big-endian 16-bit values
    at 0x0E and 0x12, the bytes from 0x48 on were decoded by the decoder the
    format selects into [width*height*4] bytes, and the stream is
    [write_png]'s for that buffer. *)
Theorem convert_bimage_true_writes_decoded_png
    (zlib_compress : list byte -> Z -> list byte)
    (zlib_crc32 : list byte -> Z) (content png : list byte) :
  convert_bimage zlib_compress zlib_crc32 content = Some png ->
  36 <= len content /\
  (bimage_format content = 0x0A \/ bimage_format content = 0x0B) /\
  0 <= bimage_width content < 65536 /\
  0 <= bimage_height content < 65536 /\
  exists rgba,
    decode_by_format (bimage_format content) (bimage_payload content)
      (bimage_width content) (bimage_height content) = Some (Ok rgba) /\
    len rgba = bimage_width content * bimage_height content * 4 /\
    png = png_file zlib_compress zlib_crc32
            (bimage_width content) (bimage_height content)
            (png_raw (bimage_width content) (bimage_height content) rgba).
Proof.
  intros E.
  destruct (Z.lt_ge_cases (len content) 36) as [Hshort|Hl].
  { rewrite convert_bimage_short in E by exact Hshort. discriminate. }
  assert (Hw : 0 <= bimage_width content < 65536).
  { unfold bimage_width. pose proof (be_int_range (slice content 14 16)) as R.
    unfold len in R. rewrite slice_length in R by lia. exact R. }
  assert (Hh : 0 <= bimage_height content < 65536).
  { unfold bimage_height. pose proof (be_int_range (slice content 18 20)) as R.
    unfold len in R. rewrite slice_length in R by lia. exact R. }
  unfold convert_bimage in E. rewrite convert_bimage_header in E by lia.
  assert (Hf : bimage_format content = 0x0A \/ bimage_format content = 0x0B).
  { unfold decode_by_format in E.
    destruct (Z.eqb_spec (bimage_format content) 11); [auto|].
    destruct (Z.eqb_spec (bimage_format content) 10); [auto|discriminate]. }
  assert (Hd : exists rgba,
             decode_by_format (bimage_format content) (bimage_payload content)
               (bimage_width content) (bimage_height content) = Some (Ok rgba) /\
             len rgba = bimage_width content * bimage_height content * 4).
  { unfold decode_by_format. destruct Hf as [-> | ->]; simpl.
    - destruct (dxt1_pixels (bimage_payload content) (bimage_width content)
                  (bimage_height content)) as (o & Eo & Hlo & _); try lia.
      exists o. rewrite Eo. auto.
    - destruct (dxt5_pixels (bimage_payload content) (bimage_width content)
                  (bimage_height content)) as (o & Eo & Hlo & _); try lia.
      exists o. rewrite Eo. auto. }
  destruct Hd as (rgba & Ed & Hlr).
  repeat (split; [assumption|]).
  exists rgba. split; [exact Ed|]. split; [exact Hlr|].
  rewrite Ed in E. cbn [bind] in E.
  destruct (decide (len (zlib_compress
                           (png_raw (bimage_width content) (bimage_height content)
                              rgba) 9) < 2 ^ 32)) as [Hc|Hc].
  - rewrite write_png_ok in E by (assumption || lia).
    cbn [bind] in E. congruence.
  - rewrite write_png_struct_error in E by lia. discriminate.
Qed.

(** The sample file, with a stand-in for zlib that stores its input. *)
Lemma convert_bimage_true_writes_decoded_png_witness :
  36 <= len sample_bimage /\
  bimage_width sample_bimage = 2 /\ bimage_height sample_bimage = 1 /\
  exists rgba,
    decode_by_format 10 (bimage_payload sample_bimage) 2 1 = Some (Ok rgba) /\
    len rgba = 2 * 1 * 4.
Proof.
  destruct (convert_bimage_true_writes_decoded_png
              (fun raw _ => raw) (fun _ => 0) sample_bimage
              (png_file (fun raw _ => raw) (fun _ => 0) 2 1
                 [x00; x00; x00; x00; x00; x00; x7f; x7f; xff]))
    as (Hl & _ & _ & _ & rgba & Ed & Hr & _).
  - vm_compute. reflexivity.
  - split; [exact Hl|]. split; [reflexivity|]. split; [reflexivity|].
    exists rgba. split; [exact Ed|exact Hr].
Defined.

(** * The two halves of a BC3 block *)

Lemma bc3_block_pixel_rgb (block : list byte) (r c : Z) :
  length block = 16%nat ->
  take 3 (bc3_block_pixel block r c)
  = match dxt5_colors (bc1_c0 (slice block 8 16)) (bc1_c1 (slice block 8 16))
          !! Z.to_nat (bc1_index (slice block 8 16) r c) with
    | Some col => rgb_list col
    | None => []
    end.
Proof.
  intros Hb. assert (Hl : len block = 16) by (unfold len; lia).
  unfold bc3_block_pixel, dxt5_decoded, bc1_c0, bc1_c1, bc1_index.
  rewrite !Z.add_0_l.
  replace (slice block 8 16) with (slice block 8 (8 + 8)) by reflexivity.
  rewrite !(slice_slice block 8 8) by lia. simpl (8 + _).
  destruct (dxt5_colors _ _ !! _) as [[[cr cg] cb]|]; [|reflexivity].
  pose proof (index3_range
                (Z.shiftr (Z.shiftr (le_int (slice block 0 8)) 16)
                   ((r * 4 + c) * 3))) as Hai.
  destruct (dxt5_alphas _ _ !! _) as [a|] eqn:Ea; [reflexivity|].
  apply lookup_ge_None in Ea. rewrite dxt5_alphas_length in Ea. lia.
Qed.

Lemma bc3_block_pixel_alpha_half (block : list byte) (r c : Z) :
  length block = 16%nat ->
  bc3_block_pixel block r c !! 3%nat
  = dxt5_alphas (byte_at (slice block 0 8) 0) (byte_at (slice block 0 8) 1)
      !! Z.to_nat (Z.land (Z.shiftr (Z.shiftr (le_int (slice block 0 8)) 16)
                             ((r * 4 + c) * 3)) 0x7).
Proof.
  intros Hb. assert (Hl : len block = 16) by (unfold len; lia).
  rewrite bc3_block_pixel_alpha. unfold bc3_ramp, bc3_alpha_index.
  replace (slice block 0 8) with (slice block 0 (0 + 8)) by reflexivity.
  rewrite !(byte_at_slice block 0 8) by lia. reflexivity.
Qed.

(** X14. The two halves of a BC3 block do not mix: the alpha byte of every
    pixel depends only on the alpha sub-block [block[0:8]], the red, green
    and blue bytes only on the colour sub-block [block[8:16]]. *)
Theorem bc3_halves_are_independent (block block' : list byte) :
  length block = 16%nat -> length block' = 16%nat ->
  exists out out',
    decompress_dxt5 block 4 4 = Ok out /\
    decompress_dxt5 block' 4 4 = Ok out' /\
    (slice block 0 8 = slice block' 0 8 ->
     forall x y, 0 <= x < 4 -> 0 <= y < 4 ->
       pixel_at out 4 x y !! 3%nat = pixel_at out' 4 x y !! 3%nat) /\
    (slice block 8 16 = slice block' 8 16 ->
     forall x y, 0 <= x < 4 -> 0 <= y < 4 ->
       take 3 (pixel_at out 4 x y) = take 3 (pixel_at out' 4 x y)).
Proof.
  intros Hb Hb'.
  destruct (dxt5_single_block block Hb) as (o & E & _ & Hp).
  destruct (dxt5_single_block block' Hb') as (o' & E' & _ & Hp').
  exists o, o'. split; [exact E|]. split; [exact E'|]. split.
  - intros Ha x y Hx Hy. rewrite Hp, Hp' by assumption.
    rewrite !bc3_block_pixel_alpha_half by assumption. rewrite Ha. reflexivity.
  - intros Hc x y Hx Hy. rewrite Hp, Hp' by assumption.
    rewrite !bc3_block_pixel_rgb by assumption. rewrite Hc. reflexivity.
Qed.

(** Two sample blocks with the same colour sub-block and different alpha
    endpoints. *)
Lemma bc3_halves_are_independent_witness :
  exists out out',
    decompress_dxt5 sample_bc3 4 4 = Ok out /\
    decompress_dxt5 sample_bc3_low 4 4 = Ok out' /\
    forall x y, 0 <= x < 4 -> 0 <= y < 4 ->
      take 3 (pixel_at out 4 x y) = take 3 (pixel_at out' 4 x y).
Proof.
  destruct (bc3_halves_are_independent sample_bc3 sample_bc3_low)
    as (o & o' & E & E' & _ & Hc); [reflexivity|reflexivity|].
  exists o, o'. split; [exact E|]. split; [exact E'|].
  apply Hc. reflexivity.
Defined.
